(** * Legifrance API helper: a shallow embedding of [tests_appels_api.py]

    The script authenticates against the PISTE OAuth endpoint, posts a search
    payload to the Legifrance search endpoint and flattens the JSON answer.
    This development embeds

    - [obtenir_token_legifrance]  (source lines 15-36),
    - [test_ping_api]             (source lines 38-90),
    - [recherche_legifrance]      (source lines 92-170),
    - the three specialisations   (source lines 174-200),
    - [extraire_resultats]        (source lines 202-229),
    - the [__main__] block        (source lines 232-235),

    over a model of the Python objects they manipulate, and proves the
    properties of the specification about them. *)

From Stdlib Require Import ZArith Ascii String List Lia.
From Stdlib Require Import Floats.SpecFloat.
From stdpp Require Import gmap strings list fin_maps pretty.

#[local] Set Warnings "-register-all".

#[local] Open Scope Z_scope.

(** ** Python objects

    The objects the script handles are the ones [json] produces, plus [None]:
    [dict] (keys are always [str]), [list], [str], [int], [float], [bool].
    A [str] is held as its UTF-8 encoding, one [ascii] per byte (a string
    literal of this file is the encoding of the Python literal); its
    characters are the UTF-8 sequences of that encoding, see [characters];
    a byte string that is no such encoding stands for no Python object.
    A [float] is an IEEE double. *)

Inductive value : Type :=
  | VNone
  | VBool (b : bool)
  | VInt (z : Z)
  | VFloat (f : spec_float)
  | VStr (s : string)
  | VList (l : list value)
  | VDict (d : gmap string value).

(** An HTTP answer as [requests.Response] exposes it.  [json] is [inr v]
    when the body decodes to [v], and [inl msg] when it is not a JSON
    document: [response.json()] then raises a [JSONDecodeError] whose
    message is [msg]. *)
Record response : Type := {
  status_code : Z;
  reason : string;
  response_url : string;
  text : string;
  json : string + value
}.

(** The exceptions that can occur.  [RequestException msg r] stands for
    [requests.exceptions.RequestException] and all its subclasses
    ([ConnectionError], [Timeout], [HTTPError], [JSONDecodeError], ...);
    [msg] is [str(e)] and [r] is [e.response]. *)
Inductive exn : Type :=
  | TypeError
  | AttributeError
  | KeyError
  | IndexError
  | RequestException (msg : string) (r : option response).

Inductive result (A : Type) : Type :=
  | Ok (a : A)
  | Raise (e : exn).
Arguments Ok {A} a.
Arguments Raise {A} e.

#[global] Instance result_ret : MRet result := @Ok.
#[global] Instance result_bind : MBind result := fun A B f m =>
  match m with
  | Ok a => f a
  | Raise e => Raise e
  end.
#[global] Instance result_fmap : FMap result := fun A B f m =>
  match m with
  | Ok a => Ok (f a)
  | Raise e => Raise e
  end.

(** *** Truth value: [bool(v)], as used by [if v], [not v], [a and b] *)
Definition py_truthy (v : value) : bool :=
  match v with
  | VNone => false
  | VBool b => b
  | VInt z => negb (z =? 0)
  | VFloat (S754_zero _) => false
  | VFloat _ => true
  | VStr EmptyString => false
  | VStr _ => true
  | VList [] => false
  | VList _ => true
  | VDict d => match map_to_list d with [] => false | _ => true end
  end.

(** *** The characters of a [str]

    In UTF-8 every character is one leading byte followed by its
    continuation bytes, the bytes from 128 to 191. *)
Definition is_continuation (c : ascii) : bool :=
  match c with
  | Ascii _ _ _ _ _ _ false true => true
  | _ => false
  end.

Definition starts_with_continuation (s : string) : bool :=
  match s with
  | String c _ => is_continuation c
  | EmptyString => false
  end.

(** The characters of [s], in order, each as a string of its own: a byte
    opens a new character unless the byte after it continues it. *)
Fixpoint characters (s : string) : list string :=
  match s with
  | EmptyString => []
  | String c s' =>
      match characters s' with
      | g :: gs =>
          if starts_with_continuation s' then String c g :: gs
          else String c EmptyString :: g :: gs
      | [] => [String c EmptyString]
      end
  end.

(** The string made of the given characters. *)
Definition join (cs : list string) : string :=
  foldr String.append EmptyString cs.

(** [is_substring k s]: the string [k] occurs in [s]. *)
Fixpoint is_substring (k s : string) : bool :=
  String.prefix k s ||
  match s with
  | EmptyString => false
  | String _ s' => is_substring k s'
  end.

Definition is_str (k : string) (v : value) : bool :=
  match v with
  | VStr s => String.eqb s k
  | _ => false
  end.

(** [k in v] for a string literal [k]: key membership on a [dict], element
    membership on a [list], substring test on a [str]; the other types are
    not containers ([TypeError]). *)
Definition py_contains (k : string) (v : value) : result bool :=
  match v with
  | VDict d => Ok (bool_decide (is_Some (d !! k)))
  | VList l => Ok (existsb (is_str k) l)
  | VStr s => Ok (is_substring k s)
  | _ => Raise TypeError
  end.

(** [v[k]] for a string literal [k]. *)
Definition py_getitem (v : value) (k : string) : result value :=
  match v with
  | VDict d => match d !! k with Some x => Ok x | None => Raise KeyError end
  | _ => Raise TypeError
  end.

(** [v[0]]: the first item of a [list], the first character of a [str].
    A [dict] decoded from JSON has no key [0]. *)
Definition py_getitem0 (v : value) : result value :=
  match v with
  | VList (x :: _) => Ok x
  | VList [] => Raise IndexError
  | VStr s =>
      match characters s with
      | c :: _ => Ok (VStr c)
      | [] => Raise IndexError
      end
  | VDict _ => Raise KeyError
  | _ => Raise TypeError
  end.

(** [v.get(k, dflt)].  The attribute [get] is looked up before the
    arguments are evaluated, so a receiver that is not a [dict] raises
    [AttributeError] whatever the evaluation of [dflt] would do. *)
Definition py_get_with (v : value) (k : string) (dflt : result value) : result value :=
  match v with
  | VDict d => x ← dflt; Ok (default x (d !! k))
  | _ => Raise AttributeError
  end.

Definition py_get (v : value) (k : string) (dflt : value) : result value :=
  py_get_with v k (Ok dflt).

Definition chars (s : string) : list value := VStr <$> characters s.

(** The elements [for x in v] runs over: the items of a [list], the
    characters of a [str], the keys of a [dict].  The keys come in the
    order of the map, not in insertion order; every loop of the script
    raises the same exception, or none, whatever the order of string
    keys. *)
Definition py_iter (v : value) : result (list value) :=
  match v with
  | VList l => Ok l
  | VStr s => Ok (chars s)
  | VDict d => Ok ((fun kv : string * value => VStr kv.1) <$> map_to_list d)
  | _ => Raise TypeError
  end.

(** A [for] loop whose body appends to an accumulator and may raise. *)
Fixpoint for_each {A B : Type} (body : B -> A -> result B) (acc : B) (l : list A) : result B :=
  match l with
  | [] => Ok acc
  | x :: l' => acc' ← body acc x; for_each body acc' l'
  end.

(** ** Result extraction ([extraire_resultats], lines 202-229) *)

(** One element of [item["extraits"]]: keys ["article"], ["texte"], ["id"]. *)
Record extrait : Type := {
  article : value;
  texte : value;
  extrait_id : value
}.

(** One element of the returned list: keys ["titre"], ["nature"], ["date"],
    ["id"], ["extraits"]. *)
Record item : Type := {
  titre : value;
  nature : value;
  date : value;
  item_id : value;
  extraits : list extrait
}.

(** Lines 221-225: the [dict] appended for one [extract]. *)
Definition extraire_extrait (extract : value) : result extrait :=
  a ← py_get extract "num" (VStr "Non numéroté");
  t ← (c ← py_contains "values" extract;
       c' ← (if c : bool then py_truthy <$> py_getitem extract "values" else Ok false);
       if c' : bool
       then l ← py_get extract "values" (VList [VStr EmptyString]); py_getitem0 l
       else Ok (VStr EmptyString));
  i ← py_get extract "id" (VStr EmptyString);
  Ok {| article := a; texte := t; extrait_id := i |}.

(** Lines 219-225: the body of [for section in resultat["sections"]]. *)
Definition extraire_section (acc : list extrait) (section : value) : result (list extrait) :=
  c ← py_contains "extracts" section;
  if c : bool
  then es ← py_getitem section "extracts";
       l ← py_iter es;
       for_each (fun acc extract => x ← extraire_extrait extract; Ok (acc ++ [x])) acc l
  else Ok acc.

(** Lines 217-225: the excerpts collected for one [resultat]. *)
Definition extraire_extraits (resultat : value) : result (list extrait) :=
  c ← py_contains "sections" resultat;
  if c : bool
  then ss ← py_getitem resultat "sections";
       l ← py_iter ss;
       for_each extraire_section [] l
  else Ok [].

(** Lines 209-225: the [item] built for one [resultat]. *)
Definition extraire_item (resultat : value) : result item :=
  t ← (c ← py_contains "titles" resultat;
       if c : bool
       then l ← py_get resultat "titles" (VList [VDict ∅]);
            x ← py_getitem0 l;
            py_get x "title" (VStr "Sans titre")
       else Ok (VStr "Sans titre"));
  n ← py_get resultat "nature" (VStr "Non spécifiée");
  d ← py_get resultat "date" (VStr "Date inconnue");
  i ← py_get_with resultat "id"
        (c ← py_contains "titles" resultat;
         if c : bool
         then l ← py_get resultat "titles" (VList [VDict ∅]);
              x ← py_getitem0 l;
              py_get x "id" VNone
         else Ok VNone);
  ex ← extraire_extraits resultat;
  Ok {| titre := t; nature := n; date := d; item_id := i; extraits := ex |}.

Definition extraire_resultats (resultats : value) : result (list item) :=
  c ← (if negb (py_truthy resultats) then Ok true
       else negb <$> py_contains "results" resultats);
  if c : bool then Ok []
  else rs ← py_getitem resultats "results";
       l ← py_iter rs;
       for_each (fun extraits resultat => it ← extraire_item resultat; Ok (extraits ++ [it])) [] l.


(** ** The HTTP side

    A request as handed to [requests.post]: [data=] sends a form, [json=]
    sends a JSON document. *)
Inductive request_body : Type :=
  | FormBody (data : value)
  | JsonBody (payload : value).

Record request : Type := {
  url : string;
  headers : gmap string string;
  body : request_body
}.

(** What the program does to the outside: the requests it has issued and
    the lines it has printed, both in order. *)
Record world : Type := {
  sent : list request;
  stdout : list string
}.

(** Computations that issue requests, print and may raise. *)
Definition M (A : Type) : Type := world -> result A * world.

#[global] Instance M_ret : MRet M := fun A a w => (Ok a, w).
#[global] Instance M_bind : MBind M := fun A B f m w =>
  match m w with
  | (Ok a, w') => f a w'
  | (Raise e, w') => (Raise e, w')
  end.

Definition lift {A : Type} (r : result A) : M A := fun w => (r, w).

Definition print (line : string) : M unit := fun w =>
  (Ok tt, {| sent := sent w; stdout := stdout w ++ [line] |}).

(** [try: m except requests.exceptions.RequestException as e: handler]. *)
Definition try_except_RequestException {A : Type}
    (m : M A) (handler : string -> option response -> M A) : M A := fun w =>
  match m w with
  | (Raise (RequestException msg r), w') => handler msg r w'
  | other => other
  end.

(** [Response.raise_for_status] of the [requests] library: an [HTTPError]
    (a [RequestException]) carrying the response, for the 4xx and 5xx
    statuses only. *)
Definition raise_for_status (r : response) : result unit :=
  if (400 <=? status_code r) && (status_code r <? 500)
  then Raise (RequestException
         (pretty (status_code r) +:+ " Client Error: " +:+ reason r +:+ " for url: " +:+ response_url r)
         (Some r))
  else if (500 <=? status_code r) && (status_code r <? 600)
  then Raise (RequestException
         (pretty (status_code r) +:+ " Server Error: " +:+ reason r +:+ " for url: " +:+ response_url r)
         (Some r))
  else Ok tt.

(** [bool(response)] is [response.ok]: [raise_for_status] does not raise. *)
Definition response_ok (r : response) : bool :=
  match raise_for_status r with
  | Ok _ => true
  | Raise _ => false
  end.

(** [response.json()]; its [JSONDecodeError] is a [RequestException]
    without response (requests 2.27 and later). *)
Definition response_json (r : response) : result value :=
  match json r with
  | inr v => Ok v
  | inl msg => Raise (RequestException msg None)
  end.

Definition LEGIFRANCE_BASE_URL : string :=
  "https://sandbox-api.piste.gouv.fr/dila/legifrance/lf-engine-app".
Definition LEGIFRANCE_OAUTH_URL : string :=
  "https://sandbox-oauth.piste.gouv.fr/api/oauth/token".

(** The parameters of [recherche_legifrance]; [default_args] holds the
    defaults of its signature, so an omitted argument is its default. *)
Record search_args : Type := {
  query : value;
  type_champ : value;
  type_recherche : value;
  fond : value;
  filtres : value;
  page : value;
  page_size : value;
  tri : value;
  token : value
}.

Definition default_args : search_args := {|
  query := VNone;
  type_champ := VStr "ALL";
  type_recherche := VStr "EXACTE";
  fond := VStr "LEGI_ARTICLE";
  filtres := VNone;
  page := VInt 1;
  page_size := VInt 10;
  tri := VStr "PERTINENCE";
  token := VNone
|}.

(** Lines 130-159: the [dict] under ["recherche"] ... *)
Definition recherche_dict (a : search_args) : gmap string value :=
  let base : gmap string value :=
    <["pageNumber" := page a]> (<["pageSize" := page_size a]>
      (<["sort" := tri a]> {[ "typePagination" := VStr "DEFAUT" ]})) in
  let with_query :=
    if py_truthy (query a)
    then <["operateur" := VStr "ET"]>
           (<["champs" :=
               VList [VDict (<["typeChamp" := type_champ a]>
                        (<["criteres" :=
                            VList [VDict (<["typeRecherche" := type_recherche a]>
                                     (<["valeur" := query a]>
                                        {[ "operateur" := VStr "ET" ]}))]]>
                           {[ "operateur" := VStr "ET" ]}))]]> base)
    else base in
  if py_truthy (filtres a)
  then <["filtres" := filtres a]> with_query
  else with_query.

(** ... and the whole payload. *)
Definition recherche_payload (a : search_args) : value :=
  VDict (<["recherche" := VDict (recherche_dict a)]> {[ "fond" := fond a ]}).

Section Client.

(** The two credentials read from the environment at import time
    ([os.getenv] gives a [str] or [None]). *)
Variable LEGIFRANCE_CLIENT_ID LEGIFRANCE_CLIENT_SECRET : value.

(** The network: what [requests.post] does with a request, either
    raising or returning a response.  Each function below posts at most
    once to each endpoint. *)
Variable post : request -> result response.

(** Python's [repr], which [str] falls back on for floats, lists and
    dicts. *)
Variable py_repr : value -> string.

(** [str(v)], as an f-string field [{v}] renders it. *)
Definition py_str (v : value) : string :=
  match v with
  | VStr s => s
  | VNone => "None"
  | VBool true => "True"
  | VBool false => "False"
  | VInt z => pretty z
  | _ => py_repr v
  end.

Definition requests_post (rq : request) : M response := fun w =>
  (post rq, {| sent := sent w ++ [rq]; stdout := stdout w |}).

Definition oauth_request : request := {|
  url := LEGIFRANCE_OAUTH_URL;
  headers := {[ "Content-Type" := "application/x-www-form-urlencoded" ]};
  body := FormBody (VDict (<["grant_type" := VStr "client_credentials"]>
                      (<["client_id" := LEGIFRANCE_CLIENT_ID]>
                         (<["client_secret" := LEGIFRANCE_CLIENT_SECRET]>
                            {[ "scope" := VStr "openid" ]}))))
|}.

(** Lines 15-36. *)
Definition obtenir_token_legifrance : M value :=
  response ← requests_post oauth_request;
  if status_code response =? 200
  then lift (j ← response_json response; py_getitem j "access_token")
  else print ("Erreur d'authentification: " +:+ pretty (status_code response)
                +:+ " - " +:+ text response);;
       mret VNone.

(** Lines 120-121: [if not token: token = obtenir_token_legifrance()]. *)
Definition token_ou_nouveau (a : search_args) : M value :=
  if negb (py_truthy (token a)) then obtenir_token_legifrance else mret (token a).

(** Lines 123-127 and 163: the request posted to the search endpoint. *)
Definition search_request (a : search_args) (tok : value) : request := {|
  url := LEGIFRANCE_BASE_URL +:+ "/search";
  headers := <["Authorization" := "Bearer " +:+ py_str tok]>
               (<["Content-Type" := "application/json"]>
                  {[ "accept" := "application/json" ]});
  body := JsonBody (recherche_payload a)
|}.

(** Lines 92-170. *)
Definition recherche_legifrance (a : search_args) : M value :=
  tok ← token_ou_nouveau a;
  try_except_RequestException
    (response ← requests_post (search_request a tok);
     lift (raise_for_status response);;
     lift (response_json response))
    (fun msg r =>
       print ("Erreur lors de la requête à l'API: " +:+ msg);;
       match r with
       | Some rsp =>
           if response_ok rsp
           then print ("Détails: " +:+ pretty (status_code rsp) +:+ " - " +:+ text rsp)
           else mret tt
       | None => mret tt
       end;;
       mret VNone).

(** Lines 174-200: the three specialisations. *)
Definition recherche_par_question (question : value) : M value :=
  recherche_legifrance {|
    query := question; type_champ := VStr "ALL"; type_recherche := VStr "APPROXIMATIVE";
    fond := VStr "LEGI_ARTICLE"; filtres := VNone; page := VInt 1; page_size := VInt 15;
    tri := VStr "PERTINENCE"; token := VNone |}.

Definition recherche_article_code (code_name article_num : value) : M value :=
  recherche_legifrance {|
    query := article_num; type_champ := VStr "NUM_ARTICLE"; type_recherche := VStr "EXACTE";
    fond := VStr "CODE_DATE";
    filtres := VList [VDict (<["facette" := VStr "NOM_CODE"]> {[ "valeurs" := VList [code_name] ]})];
    page := VInt 1; page_size := VInt 10; tri := VStr "PERTINENCE"; token := VNone |}.

Definition recherche_jurisprudence (theme : value) : M value :=
  recherche_legifrance {|
    query := theme; type_champ := VStr "ALL"; type_recherche := VStr "EXACTE";
    fond := VStr "JURI_DATE"; filtres := VNone; page := VInt 1; page_size := VInt 20;
    tri := VStr "DATE"; token := VNone |}.

End Client.

(** [p["recherche"][k]], when the payload [p] has it. *)
Definition recherche_key (p : value) (k : string) : option value :=
  match p with
  | VDict d =>
      match d !! "recherche" with
      | Some (VDict r) => r !! k
      | _ => None
      end
  | _ => None
  end.

(** The single field-criterion block built for a query (lines 143-153). *)
Definition champ_block (type_champ type_recherche q : value) : value :=
  VDict (<["typeChamp" := type_champ]>
    (<["criteres" :=
        VList [VDict (<["typeRecherche" := type_recherche]>
                 (<["valeur" := q]> {[ "operateur" := VStr "ET" ]}))]]>
       {[ "operateur" := VStr "ET" ]})).

Definition with_query (a : search_args) (q : value) : search_args := {|
  query := q; type_champ := type_champ a; type_recherche := type_recherche a;
  fond := fond a; filtres := filtres a; page := page a; page_size := page_size a;
  tri := tri a; token := token a |}.

Definition with_filtres (a : search_args) (f : value) : search_args := {|
  query := query a; type_champ := type_champ a; type_recherche := type_recherche a;
  fond := fond a; filtres := f; page := page a; page_size := page_size a;
  tri := tri a; token := token a |}.

Definition with_token (a : search_args) (t : value) : search_args := {|
  query := query a; type_champ := type_champ a; type_recherche := type_recherche a;
  fond := fond a; filtres := filtres a; page := page a; page_size := page_size a;
  tri := tri a; token := t |}.

(** ** Shapes and expected values used in the statements *)

(** A search request has failed: [requests.post] raised a
    [RequestException], or the answer carries a 4xx or 5xx status. *)
Definition echec_requete (o : result response) : Prop :=
  match o with
  | Raise (RequestException _ _) => True
  | Raise _ => False
  | Ok r => 400 <= status_code r < 600
  end.

(** The record shapes of the search API: ["titles"], when present, is a
    list starting with an object; ["sections"], when present, is a list of
    objects whose ["extracts"], when present, is a list of objects; the
    ["values"] of an extract, when present, is a list, a string or a value
    that counts as false.  An empty ["titles"] list is not covered. *)
Definition values_ok (v : value) : bool :=
  match v with
  | VList _ | VStr _ => true
  | _ => negb (py_truthy v)
  end.

Definition extract_ok (e : value) : bool :=
  match e with
  | VDict d =>
      match d !! "values" with
      | None => true
      | Some v => values_ok v
      end
  | _ => false
  end.

Definition section_ok (s : value) : bool :=
  match s with
  | VDict d =>
      match d !! "extracts" with
      | None => true
      | Some (VList es) => forallb extract_ok es
      | Some _ => false
      end
  | _ => false
  end.

Definition titles_ok (d : gmap string value) : bool :=
  match d !! "titles" with
  | None => true
  | Some (VList (VDict _ :: _)) => true
  | Some _ => false
  end.

Definition sections_ok (d : gmap string value) : bool :=
  match d !! "sections" with
  | None => true
  | Some (VList ss) => forallb section_ok ss
  | Some _ => false
  end.

Definition resultat_ok (r : value) : bool :=
  match r with
  | VDict d => titles_ok d && sections_ok d
  | _ => false
  end.

(** The first entry of ["titles"], when there is one and it is an object. *)
Definition premier_titre (d : gmap string value) : option (gmap string value) :=
  match d !! "titles" with
  | Some (VList (VDict td :: _)) => Some td
  | _ => None
  end.

(** The fields of the flattened item as the specification words them, each
    with its own fallback. *)
Definition titre_attendu (d : gmap string value) : value :=
  match premier_titre d with
  | Some td => default (VStr "Sans titre") (td !! "title")
  | None => VStr "Sans titre"
  end.

Definition id_attendu (d : gmap string value) : value :=
  default (match premier_titre d with
           | Some td => default VNone (td !! "id")
           | None => VNone
           end) (d !! "id").

Definition texte_attendu (ed : gmap string value) : value :=
  match ed !! "values" with
  | Some (VList (x :: _)) => x
  | Some (VStr s) =>
      match characters s with
      | c :: _ => VStr c
      | [] => VStr EmptyString
      end
  | _ => VStr EmptyString
  end.

Definition extrait_attendu (e : value) : extrait :=
  match e with
  | VDict ed => {|
      article := default (VStr "Non numéroté") (ed !! "num");
      texte := texte_attendu ed;
      extrait_id := default (VStr EmptyString) (ed !! "id") |}
  | _ => {| article := VNone; texte := VNone; extrait_id := VNone |}
  end.

(** The extracts of a well-shaped record, section after section. *)
Definition extracts_section (s : value) : list value :=
  match s with
  | VDict sd =>
      match sd !! "extracts" with
      | Some (VList es) => es
      | _ => []
      end
  | _ => []
  end.

Definition extracts_attendus (d : gmap string value) : list value :=
  match d !! "sections" with
  | Some (VList ss) => concat (extracts_section <$> ss)
  | _ => []
  end.

Definition item_attendu (r : value) : item :=
  match r with
  | VDict d => {|
      titre := titre_attendu d;
      nature := default (VStr "Non spécifiée") (d !! "nature");
      date := default (VStr "Date inconnue") (d !! "date");
      item_id := id_attendu d;
      extraits := extrait_attendu <$> extracts_attendus d |}
  | _ => {| titre := VNone; nature := VNone; date := VNone; item_id := VNone; extraits := [] |}
  end.

(** The [extract] objects that the loops of lines 217-220 visit, in order,
    for any record: the traversal of [extraire_extraits], collecting the
    visited objects instead of flattening them. *)
Definition extracts_visites_section (section : value) : result (list value) :=
  c ← py_contains "extracts" section;
  if c : bool
  then es ← py_getitem section "extracts"; py_iter es
  else Ok [].

Definition extracts_visites (resultat : value) : result (list value) :=
  c ← py_contains "sections" resultat;
  if c : bool
  then ss ← py_getitem resultat "sections";
       l ← py_iter ss;
       for_each (fun acc section => es ← extracts_visites_section section; Ok (acc ++ es)) [] l
  else Ok [].

(** [x] is the excerpt produced for the extract [e]; its text is the empty
    string when [e] has no ["values"]. *)
Definition extrait_de (e : value) (x : extrait) : Prop :=
  ∃ ed, e = VDict ed ∧
    extraire_extrait e = Ok x ∧
    (ed !! "values" = None → texte x = VStr EmptyString).

(** ** Concrete runs used as test vectors *)

Definition monde_initial : world := {| sent := []; stdout := [] |}.

Definition reponse (status : Z) (raison : string) (j : string + value) : response := {|
  status_code := status;
  reason := raison;
  response_url := LEGIFRANCE_BASE_URL +:+ "/search";
  text := EmptyString;
  json := j
|}.

(** A network that answers every request with the same response. *)
Definition reseau_constant (r : response) : request -> result response :=
  fun _ => Ok r.

Definition repr_vide : value -> string := fun _ => EmptyString.

Definition reponse_token : response :=
  reponse 200 "OK" (inr (VDict {[ "access_token" := VStr "abc" ]})).
Definition reponse_401 : response :=
  reponse 401 "Unauthorized" (inl "Expecting value").
Definition reponse_500 : response :=
  reponse 500 "Internal Server Error" (inl "Expecting value").
Definition reponse_304 : response :=
  reponse 304 "Not Modified" (inr (VDict {[ "results" := VList [] ]})).

Definition args_avec_token : search_args := with_token default_args (VStr "jeton").

(** A record with every field, and the response that holds it. *)
Definition resultat_exemple : value :=
  VDict (<["titles" := VList [VDict (<["title" := VStr "Code civil"]> {[ "id" := VStr "LEGITEXT1" ]})]]>
    (<["nature" := VStr "CODE"]>
       {[ "sections" :=
            VList [VDict {[ "extracts" :=
              VList [VDict (<["num" := VStr "1240"]> {[ "values" := VList [VStr "Tout fait"] ]});
                     VDict {[ "id" := VStr "LEGIARTI2" ]}] ]};
                   VDict {[ "title" := VStr "Livre III" ]}] ]})).

Definition reponse_exemple : gmap string value :=
  {[ "results" := VList [resultat_exemple; VDict ∅] ]}.

(** ** The diagnostic entry point ([test_ping_api], lines 38-90, and the
    [__main__] block, lines 232-235) *)

(** [len(v)]. *)
Definition py_len (v : value) : result Z :=
  match v with
  | VList l => Ok (Z.of_nat (length l))
  | VStr s => Ok (Z.of_nat (length (characters s)))
  | VDict d => Ok (Z.of_nat (size d))
  | _ => Raise TypeError
  end.

(** Lines 55-75: the fixed payload of the diagnostic search. *)
Definition ping_payload : value :=
  VDict (<["recherche" :=
            VDict (<["champs" :=
                      VList [VDict (<["typeChamp" := VStr "ALL"]>
                               (<["criteres" :=
                                   VList [VDict (<["typeRecherche" := VStr "EXACTE"]>
                                            (<["valeur" := VStr "Code civil"]>
                                               {[ "operateur" := VStr "ET" ]}))]]>
                                  {[ "operateur" := VStr "ET" ]}))]]>
                     (<["pageNumber" := VInt 1]>
                        (<["pageSize" := VInt 1]> {[ "sort" := VStr "PERTINENCE" ]})))]>
           {[ "fond" := VStr "CODE_DATE" ]}).

Section Ping.

Variable LEGIFRANCE_CLIENT_ID LEGIFRANCE_CLIENT_SECRET : value.
Variable post : request -> result response.
Variable py_repr : value -> string.

(** What [d[:15]] raises on a [dict]: [TypeError] up to Python 3.11, where
    a slice cannot be hashed, [KeyError] from Python 3.12 on. *)
Variable dict_slice_exn : exn.

(** [v[:15]]. *)
Definition py_slice15 (v : value) : result value :=
  match v with
  | VStr s => Ok (VStr (join (take 15%nat (characters s))))
  | VList l => Ok (VList (take 15%nat l))
  | VDict _ => Raise dict_slice_exn
  | _ => Raise TypeError
  end.

(** Lines 48-52 and 77: the request of the diagnostic search. *)
Definition ping_request (tok : value) : request := {|
  url := LEGIFRANCE_BASE_URL +:+ "/search";
  headers := <["Authorization" := "Bearer " +:+ py_str py_repr tok]>
               (<["Content-Type" := "application/json"]>
                  {[ "accept" := "application/json" ]});
  body := JsonBody ping_payload
|}.

(** Lines 38-90. *)
Definition test_ping_api : M string :=
  tok ← obtenir_token_legifrance LEGIFRANCE_CLIENT_ID LEGIFRANCE_CLIENT_SECRET post;
  if negb (py_truthy tok)
  then mret "Échec de connexion à Legifrance (échec d'obtention du token)"
  else
    debut ← lift (py_slice15 tok);
    print ("Token obtenu avec succès: " +:+ py_str py_repr debut +:+ "...");;
    response ← requests_post post (ping_request tok);
    if status_code response =? 200
    then
      resultat ← lift (response_json response);
      print "Requête réussie !";;
      print (py_str py_repr resultat);;
      c ← lift (py_contains "results" resultat);
      if c : bool
      then
        rs ← lift (py_getitem resultat "results");
        nombre_resultats ← lift (py_len rs);
        print ("Nombre de résultats: " +:+ pretty nombre_resultats);;
        mret ("Connexion réussie à Legifrance, " +:+ pretty nombre_resultats
                +:+ " résultat(s) obtenus")
      else mret "Connexion réussie à Legifrance, structure de réponse inhabituelle"
    else
      print ("Erreur lors de la requête: " +:+ pretty (status_code response)
               +:+ " - " +:+ text response);;
      mret ("Échec de la requête à Legifrance: code " +:+ pretty (status_code response)).

(** Lines 232-235: the script run as a program. *)
Definition main : M unit :=
  print "Test de connexion à l'API Legifrance...";;
  resultat ← test_ping_api;
  print "Fin de test.".

End Ping.

(** A response as an object holding a list of records under ["results"]. *)
Definition reponse_resultats (rs : list value) : response :=
  reponse 200 "OK" (inr (VDict {[ "results" := VList rs ]})).

(** The arguments the three specialisations pass on (lines 176-181,
    186-191 and 195-200). *)
Definition args_question (question : value) : search_args := {|
  query := question; type_champ := VStr "ALL"; type_recherche := VStr "APPROXIMATIVE";
  fond := VStr "LEGI_ARTICLE"; filtres := VNone; page := VInt 1; page_size := VInt 15;
  tri := VStr "PERTINENCE"; token := VNone |}.

Definition args_article_code (code_name article_num : value) : search_args := {|
  query := article_num; type_champ := VStr "NUM_ARTICLE"; type_recherche := VStr "EXACTE";
  fond := VStr "CODE_DATE";
  filtres := VList [VDict (<["facette" := VStr "NOM_CODE"]> {[ "valeurs" := VList [code_name] ]})];
  page := VInt 1; page_size := VInt 10; tri := VStr "PERTINENCE"; token := VNone |}.

Definition args_jurisprudence (theme : value) : search_args := {|
  query := theme; type_champ := VStr "ALL"; type_recherche := VStr "EXACTE";
  fond := VStr "JURI_DATE"; filtres := VNone; page := VInt 1; page_size := VInt 20;
  tri := VStr "DATE"; token := VNone |}.

(** [p["fond"]], when the payload [p] has it. *)
Definition payload_fond (p : value) : option value :=
  match p with
  | VDict d => d !! "fond"
  | _ => None
  end.

(** A network whose token endpoint hands out the token ["abc"] and whose
    search endpoint answers [r]; a network that is down. *)
Definition reseau_avec_token (r : response) : request -> result response :=
  fun rq => if String.eqb (url rq) LEGIFRANCE_OAUTH_URL then Ok reponse_token else Ok r.

Definition reseau_en_panne : request -> result response :=
  fun _ => Raise (RequestException "Connection refused" None).

Definition reponse_sans_token : response :=
  reponse 200 "OK" (inr (VDict {[ "error" := VStr "invalid_client" ]})).

(** A network that hands out the token ["abc"] and then breaks. *)
Definition reseau_recherche_en_panne : request -> result response :=
  fun rq => if String.eqb (url rq) LEGIFRANCE_OAUTH_URL then Ok reponse_token
            else Raise (RequestException "Connection refused" None).

(** [v] is a number or a boolean: an object without items. *)
Definition scalaire (v : value) : bool :=
  match v with
  | VBool _ | VInt _ | VFloat _ => true
  | _ => false
  end.

(** ** Properties of the search payload *)

Lemma recherche_key_payload (a : search_args) (k : string) :
  recherche_key (recherche_payload a) k = recherche_dict a !! k.
Proof. reflexivity. Qed.

Lemma recherche_dict_champs (a : search_args) :
  recherche_dict a !! "champs" =
    if py_truthy (query a)
    then Some (VList [champ_block (type_champ a) (type_recherche a) (query a)])
    else None.
Proof.
  unfold recherche_dict, champ_block.
  destruct (py_truthy (query a)), (py_truthy (filtres a)); by simplify_map_eq.
Qed.

Lemma recherche_dict_operateur (a : search_args) :
  recherche_dict a !! "operateur" =
    if py_truthy (query a) then Some (VStr "ET") else None.
Proof.
  unfold recherche_dict.
  destruct (py_truthy (query a)), (py_truthy (filtres a)); by simplify_map_eq.
Qed.

Lemma recherche_dict_filtres (a : search_args) :
  recherche_dict a !! "filtres" =
    if py_truthy (filtres a) then Some (filtres a) else None.
Proof.
  unfold recherche_dict.
  destruct (py_truthy (query a)), (py_truthy (filtres a)); by simplify_map_eq.
Qed.

Lemma py_truthy_str (s : string) : s ≠ EmptyString → py_truthy (VStr s) = true.
Proof. by destruct s. Qed.

Lemma py_truthy_list (l : list value) : l ≠ [] → py_truthy (VList l) = true.
Proof. by destruct l. Qed.

(** C3 (amended).  When the query is omitted ([None]) the payload has no
    ["champs"] block; when a non-empty query string is given, ["champs"] is
    a list of exactly one block carrying that string, the given
    [type_champ] and [type_recherche], every operator being ["ET"]. *)
Theorem recherche_payload_champs (a : search_args) :
  (query a = VNone → recherche_key (recherche_payload a) "champs" = None) ∧
  (∀ s, query a = VStr s → s ≠ EmptyString →
     recherche_key (recherche_payload a) "champs" =
       Some (VList [champ_block (type_champ a) (type_recherche a) (VStr s)]) ∧
     recherche_key (recherche_payload a) "operateur" = Some (VStr "ET")).
Proof.
  rewrite !recherche_key_payload, recherche_dict_champs, recherche_dict_operateur.
  split.
  - by intros ->.
  - intros s -> Hs. by rewrite py_truthy_str.
Qed.

Lemma recherche_payload_champs_witness :
  recherche_key (recherche_payload default_args) "champs" = None ∧
  recherche_key (recherche_payload (with_query default_args (VStr "bail"))) "champs" =
    Some (VList [champ_block (VStr "ALL") (VStr "EXACTE") (VStr "bail")]).
Proof.
  split.
  - apply (proj1 (recherche_payload_champs default_args)). reflexivity.
  - apply (proj2 (recherche_payload_champs (with_query default_args (VStr "bail"))) "bail").
    + reflexivity.
    + discriminate.
Defined.

(** C3, as stated, fails on the empty query string: a string is given and
    the payload has no ["champs"] block. *)
Lemma recherche_payload_champs_query_vide :
  query (with_query default_args (VStr EmptyString)) = VStr EmptyString ∧
  recherche_key (recherche_payload (with_query default_args (VStr EmptyString))) "champs" = None.
Proof. split; reflexivity. Qed.

(** C4 (amended).  When [filtres] is omitted ([None]) the payload has no
    ["filtres"] key; when a non-empty filter list is given, the payload's
    ["filtres"] is that list, unchanged. *)
Theorem recherche_payload_filtres (a : search_args) :
  (filtres a = VNone → recherche_key (recherche_payload a) "filtres" = None) ∧
  (∀ l, filtres a = VList l → l ≠ [] →
     recherche_key (recherche_payload a) "filtres" = Some (VList l)).
Proof.
  rewrite recherche_key_payload, recherche_dict_filtres.
  split.
  - by intros ->.
  - intros l -> Hl. by rewrite py_truthy_list.
Qed.

Lemma recherche_payload_filtres_witness :
  recherche_key (recherche_payload default_args) "filtres" = None ∧
  recherche_key (recherche_payload (with_filtres default_args (VList [VDict {[ "facette" := VStr "NOM_CODE" ]}]))) "filtres" =
    Some (VList [VDict {[ "facette" := VStr "NOM_CODE" ]}]).
Proof.
  split.
  - apply (proj1 (recherche_payload_filtres default_args)). reflexivity.
  - apply (proj2 (recherche_payload_filtres
             (with_filtres default_args (VList [VDict {[ "facette" := VStr "NOM_CODE" ]}])))).
    + reflexivity.
    + discriminate.
Defined.

(** C4, as stated, fails on the empty filter list: a list is given and the
    payload has no ["filtres"] key. *)
Lemma recherche_payload_filtres_liste_vide :
  filtres (with_filtres default_args (VList [])) = VList [] ∧
  recherche_key (recherche_payload (with_filtres default_args (VList []))) "filtres" = None.
Proof. split; reflexivity. Qed.

(** C10.  With the empty string as query the payload is the one built
    without a query: no ["champs"] block and no ["operateur"] key under
    ["recherche"]. *)
Theorem recherche_payload_query_vide (a : search_args) :
  recherche_payload (with_query a (VStr EmptyString)) = recherche_payload (with_query a VNone) ∧
  recherche_key (recherche_payload (with_query a (VStr EmptyString))) "champs" = None ∧
  recherche_key (recherche_payload (with_query a (VStr EmptyString))) "operateur" = None.
Proof.
  split; [reflexivity|].
  by rewrite !recherche_key_payload, recherche_dict_champs, recherche_dict_operateur.
Qed.

(** ** Properties of result extraction *)

Lemma py_truthy_dict (d : gmap string value) (k : string) (v : value) :
  d !! k = Some v → py_truthy (VDict d) = true.
Proof.
  intros H. simpl. destruct (map_to_list d) eqn:E; [|done].
  apply map_to_list_empty_iff in E. subst d. by rewrite lookup_empty in H.
Qed.

Lemma existsb_is_str (k : string) (l : list value) :
  VStr k ∉ l → existsb (is_str k) l = false.
Proof.
  induction l as [|x l IH]; [done|]. intros Hx. simpl.
  rewrite IH by (intros ?; apply Hx; by right).
  destruct x as [ | | | |s| | ]; try done. simpl.
  destruct (String.eqb_spec s k) as [->|]; [|done].
  destruct Hx. by left.
Qed.

(** C5 (amended).  On [None] and on every other input that counts as
    false, on every object without a ["results"] key, on every list
    without the item ["results"] and on every string in which ["results"]
    does not occur, the extraction returns the empty list. *)
Theorem extraire_resultats_sans_results (resultats : value) :
  resultats = VNone ∨
  py_truthy resultats = false ∨
  (∃ d, resultats = VDict d ∧ d !! "results" = None) ∨
  (∃ l, resultats = VList l ∧ VStr "results" ∉ l) ∨
  (∃ s, resultats = VStr s ∧ is_substring "results" s = false) →
  extraire_resultats resultats = Ok [].
Proof.
  unfold extraire_resultats.
  intros [-> | [Hf | [(d & -> & Hd) | [(l & -> & Hl) | (s & -> & Hs)]]]].
  - reflexivity.
  - by rewrite Hf.
  - destruct (py_truthy (VDict d)); [|reflexivity].
    simpl. rewrite Hd. reflexivity.
  - destruct (py_truthy (VList l)); [|reflexivity].
    simpl. by rewrite (existsb_is_str "results" l Hl).
  - destruct (py_truthy (VStr s)); [|reflexivity].
    simpl. by rewrite Hs.
Qed.

Lemma extraire_resultats_sans_results_witness :
  extraire_resultats VNone = Ok [] ∧
  extraire_resultats (VDict {[ "totalResultNumber" := VInt 0 ]}) = Ok [] ∧
  extraire_resultats (VList [VStr "erreur"]) = Ok [] ∧
  extraire_resultats (VStr "Service indisponible") = Ok [].
Proof.
  split; [|split; [|split]].
  - apply extraire_resultats_sans_results. left. reflexivity.
  - apply extraire_resultats_sans_results. right. right. left.
    exists {[ "totalResultNumber" := VInt 0 ]}. split; reflexivity.
  - apply extraire_resultats_sans_results. right. right. right. left.
    exists [VStr "erreur"]. split; [reflexivity|].
    intros H. apply list_elem_of_singleton in H. discriminate.
  - apply extraire_resultats_sans_results. right. right. right. right.
    exists "Service indisponible". split; reflexivity.
Defined.

(** C5, as stated, fails on a response that has no keys at all: on the
    JSON value [true] the membership test raises. *)
Lemma extraire_resultats_sans_results_booleen :
  extraire_resultats (VBool true) = Raise TypeError.
Proof. reflexivity. Qed.

(** C7.  On [{"results": [{"nature": "LOI", "date": "2020-01-01"}]}] the
    extraction returns one item: title ["Sans titre"], nature ["LOI"], date
    ["2020-01-01"], id [None], no excerpt. *)
Theorem extraire_resultats_scenario :
  extraire_resultats
    (VDict {[ "results" :=
        VList [VDict (<["nature" := VStr "LOI"]> {[ "date" := VStr "2020-01-01" ]})] ]}) =
  Ok [ {| titre := VStr "Sans titre"; nature := VStr "LOI"; date := VStr "2020-01-01";
          item_id := VNone; extraits := [] |} ].
Proof. vm_compute. reflexivity. Qed.

(** ** The loops of the extraction *)

Section ForEach.

Context {A X : Type} (f : A → result X).

#[local] Abbreviation append_body :=
  (fun (acc : list X) (e : A) => x ← f e; Ok (acc ++ [x])).

Lemma for_each_append_ok (g : A → X) (l : list A) (acc : list X) :
  Forall (λ e, f e = Ok (g e)) l →
  for_each append_body acc l = Ok (acc ++ (g <$> l)).
Proof.
  intros H. revert acc. induction H as [|e l He _ IH]; intros acc; simpl.
  - by rewrite app_nil_r.
  - rewrite He. simpl. rewrite IH. by rewrite <- app_assoc.
Qed.

Lemma for_each_append_inv (l : list A) (acc r : list X) :
  for_each append_body acc l = Ok r →
  ∃ xs, r = acc ++ xs ∧ Forall2 (λ e x, f e = Ok x) l xs.
Proof.
  revert acc. induction l as [|e l IH]; intros acc; simpl.
  - intros [= <-]. exists []. by rewrite app_nil_r.
  - destruct (f e) as [x|] eqn:He; simpl; [|discriminate].
    intros (xs & -> & Hxs)%IH. exists (x :: xs).
    rewrite <- app_assoc. split; [done|]. by constructor.
Qed.

End ForEach.

Lemma contains_dict (d : gmap string value) (k : string) :
  py_contains k (VDict d) = Ok (match d !! k with Some _ => true | None => false end).
Proof. simpl. by destruct (d !! k). Qed.

(** A string that is not empty has a first character, and cutting a string
    into its characters loses nothing. *)
Lemma characters_cons (c : ascii) (s : string) :
  ∃ g gs, characters (String c s) = g :: gs.
Proof.
  simpl. destruct (characters s); [eauto|].
  destruct (starts_with_continuation s); eauto.
Qed.

Lemma join_characters (s : string) : join (characters s) = s.
Proof.
  induction s as [|c s IH]; [done|]. simpl.
  destruct (characters s) as [|g gs] eqn:E.
  - destruct s as [|c' s']; [done|].
    destruct (characters_cons c' s') as (g & gs & ?). congruence.
  - change (join (g :: gs)) with (g +:+ join gs) in IH.
    destruct (starts_with_continuation s).
    + change (join (String c g :: gs)) with (String c (g +:+ join gs)). by rewrite IH.
    + change (join (String c EmptyString :: g :: gs)) with (String c (g +:+ join gs)).
      by rewrite IH.
Qed.

(** An extract of the expected shape is flattened without error. *)
Lemma extraire_extrait_ok (e : value) :
  extract_ok e = true → extraire_extrait e = Ok (extrait_attendu e).
Proof.
  destruct e as [ | | | | | |ed]; try discriminate. simpl.
  unfold extraire_extrait, texte_attendu. rewrite contains_dict. simpl.
  destruct (ed !! "values") as [v|]; simpl; [|done].
  intros Hv.
  destruct v as [ |b|z|f|s|l|vd]; simpl in *; try done.
  - by destruct b.
  - by destruct (z =? 0).
  - by destruct f.
  - destruct s as [|c s']; [done|].
    by destruct (characters_cons c s') as (g & gs & ->).
  - by destruct l.
  - by destruct (map_to_list vd).
Qed.

Lemma extraire_section_ok (acc : list extrait) (s : value) :
  section_ok s = true →
  extraire_section acc s = Ok (acc ++ (extrait_attendu <$> extracts_section s)).
Proof.
  destruct s as [ | | | | | |sd]; try discriminate. simpl.
  unfold extraire_section. rewrite contains_dict. simpl.
  destruct (sd !! "extracts") as [es|]; simpl; [|by rewrite app_nil_r].
  destruct es as [ | | | | |l| ]; try discriminate. simpl.
  intros Hl. apply for_each_append_ok.
  apply Forall_forall. intros e He. apply extraire_extrait_ok.
  rewrite forallb_forall in Hl. by apply Hl, list_elem_of_In.
Qed.

Lemma extraire_sections_ok (ss : list value) (acc : list extrait) :
  forallb section_ok ss = true →
  for_each extraire_section acc ss =
    Ok (acc ++ (extrait_attendu <$> concat (extracts_section <$> ss))).
Proof.
  revert acc. induction ss as [|s ss IH]; intros acc; simpl.
  - by rewrite app_nil_r.
  - intros [Hs Hss]%andb_prop. rewrite (extraire_section_ok acc s Hs). simpl.
    rewrite (IH _ Hss), fmap_app. by rewrite <- app_assoc.
Qed.

Lemma extraire_extraits_ok (d : gmap string value) :
  sections_ok d = true →
  extraire_extraits (VDict d) = Ok (extrait_attendu <$> extracts_attendus d).
Proof.
  unfold extraire_extraits, sections_ok, extracts_attendus.
  rewrite contains_dict. simpl.
  destruct (d !! "sections") as [ss|]; [|done].
  destruct ss as [ | | | | |l| ]; try discriminate. simpl.
  intros Hs. by rewrite (extraire_sections_ok l [] Hs).
Qed.

(** A record of the expected shape is flattened without error, every field
    taking its own fallback. *)
Lemma extraire_item_ok (r : value) :
  resultat_ok r = true → extraire_item r = Ok (item_attendu r).
Proof.
  destruct r as [ | | | | | |d]; try discriminate. simpl.
  intros [Ht Hs]%andb_prop.
  unfold extraire_item. rewrite (extraire_extraits_ok d Hs).
  unfold titles_ok in Ht.
  unfold titre_attendu, id_attendu, premier_titre.
  rewrite !contains_dict. simpl.
  destruct (d !! "titles") as [t|]; simpl; [|done].
  by destruct t as [ | | | | |[|[ | | | | | |td] rest]| ].
Qed.

(** C1 (amended).  For every response whose ["results"] is a list of
    records of the expected shape (objects whose ["titles"], when present,
    is a list starting with an object, whose ["sections"], when present, is
    a list of objects, each with ["extracts"], when present, a list of
    objects with a usable ["values"]), the extraction raises nothing and
    returns one item per record, each field of which takes its own fallback
    when its source is missing, independently of the other fields. *)
Theorem extraire_resultats_bien_formes (d : gmap string value) (rs : list value) :
  d !! "results" = Some (VList rs) →
  forallb resultat_ok rs = true →
  extraire_resultats (VDict d) = Ok (item_attendu <$> rs).
Proof.
  intros Hd Hrs. unfold extraire_resultats.
  rewrite (py_truthy_dict d _ _ Hd), contains_dict. simpl. rewrite Hd. simpl.
  apply (for_each_append_ok extraire_item item_attendu rs []).
  apply Forall_forall. intros r Hr. apply extraire_item_ok.
  rewrite forallb_forall in Hrs. by apply Hrs, list_elem_of_In.
Qed.

Lemma bind_ok_inv {A B : Type} (m : result A) (f : A → result B) (b : B) :
  m ≫= f = Ok b → ∃ a, m = Ok a ∧ f a = Ok b.
Proof. destruct m as [a|e]; simpl; [eauto|discriminate]. Qed.

Lemma py_get_inv (v : value) (k : string) (dflt x : value) :
  py_get v k dflt = Ok x → ∃ d, v = VDict d ∧ x = default dflt (d !! k).
Proof. destruct v; simpl; try discriminate. intros [= <-]. eauto. Qed.

Lemma extraire_extrait_inv (e : value) (x : extrait) :
  extraire_extrait e = Ok x → extrait_de e x.
Proof.
  intros H. pose proof H as H0. unfold extraire_extrait in H.
  apply bind_ok_inv in H as (a & (ed & -> & _)%py_get_inv & H).
  exists ed. split; [done|]. split; [done|].
  intros Hv. rewrite contains_dict, Hv in H. simpl in H.
  by injection H as <-.
Qed.

Lemma extraire_section_inv (acc acc' : list extrait) (s : value) :
  extraire_section acc s = Ok acc' →
  ∃ es xs, extracts_visites_section s = Ok es ∧ acc' = acc ++ xs ∧
           Forall2 extrait_de es xs.
Proof.
  unfold extraire_section, extracts_visites_section.
  destruct (py_contains "extracts" s) as [[|]|]; simpl; try discriminate.
  - destruct (py_getitem s "extracts") as [es|]; simpl; try discriminate.
    destruct (py_iter es) as [l|]; simpl; try discriminate.
    intros (xs & -> & Hxs)%for_each_append_inv.
    exists l, xs. split; [done|]. split; [done|].
    eapply Forall2_impl; [exact Hxs|]. intros e x. apply extraire_extrait_inv.
  - intros [= <-]. exists [], []. by rewrite app_nil_r.
Qed.

Lemma extraire_sections_inv (ss : list value) (acc ex : list extrait) (accv : list value) :
  for_each extraire_section acc ss = Ok ex →
  Forall2 extrait_de accv acc →
  ∃ es, for_each (fun acc s => es ← extracts_visites_section s; Ok (acc ++ es)) accv ss = Ok es ∧
        Forall2 extrait_de es ex.
Proof.
  revert acc accv. induction ss as [|s ss IH]; intros acc accv; simpl.
  - intros [= <-] Hacc. eauto.
  - intros (acc' & Hs & Hss)%bind_ok_inv Hacc.
    apply extraire_section_inv in Hs as (es & xs & -> & -> & Hxs). simpl.
    eapply IH; [exact Hss|]. by apply Forall2_app.
Qed.

Lemma extraire_extraits_inv (r : value) (ex : list extrait) :
  extraire_extraits r = Ok ex →
  ∃ es, extracts_visites r = Ok es ∧ Forall2 extrait_de es ex.
Proof.
  unfold extraire_extraits, extracts_visites.
  destruct (py_contains "sections" r) as [[|]|]; simpl; try discriminate.
  - destruct (py_getitem r "sections") as [ss|]; simpl; try discriminate.
    destruct (py_iter ss) as [l|]; simpl; try discriminate.
    intros H. eapply extraire_sections_inv; [exact H|constructor].
  - intros [= <-]. eauto.
Qed.

(** Whenever an item is produced for a record: the title is ["Sans titre"]
    when ["titles"] is missing or its first entry has no ["title"]; the
    nature is ["Non spécifiée"] and the date ["Date inconnue"] when
    missing; the id is the record's ["id"], else the ["id"] of the first
    title entry, else [None]; and every excerpt comes from one visited
    extract, in order, its text being the empty string when that extract
    has no ["values"]. *)
Theorem extraire_item_defauts (resultat : value) (it : item) :
  extraire_item resultat = Ok it →
  ∃ d, resultat = VDict d ∧
    (d !! "titles" = None → titre it = VStr "Sans titre") ∧
    (∀ td, premier_titre d = Some td →
       titre it = default (VStr "Sans titre") (td !! "title")) ∧
    nature it = default (VStr "Non spécifiée") (d !! "nature") ∧
    date it = default (VStr "Date inconnue") (d !! "date") ∧
    item_id it =
      default (match premier_titre d with
               | Some td => default VNone (td !! "id")
               | None => VNone
               end) (d !! "id") ∧
    ∃ es, extracts_visites resultat = Ok es ∧ Forall2 extrait_de es (extraits it).
Proof.
  intros H. unfold extraire_item in H.
  apply bind_ok_inv in H as (t & Ht & H).
  apply bind_ok_inv in H as (n & (d & -> & ->)%py_get_inv & H).
  exists d. split; [done|].
  rewrite contains_dict in Ht, H.
  unfold py_get, py_get_with in H. simpl in H.
  apply bind_ok_inv in H as (i & Hi & H).
  apply bind_ok_inv in H as (ex & (es & Hes & Hex)%extraire_extraits_inv & [= <-]).
  simpl. unfold premier_titre.
  destruct (d !! "titles") as [tv|] eqn:Etv; simpl in *.
  - apply bind_ok_inv in Ht as (x & Hx & Ht).
    rewrite Etv in Hx. simpl in Hx.
    apply py_get_inv in Ht as (td & -> & ->).
    destruct tv as [ | | | | |[|x' rest]| ]; simpl in Hx; try discriminate.
    + destruct (characters s); discriminate.
    + injection Hx as ->. simpl in Hi. injection Hi as <-.
      repeat split; try done; eauto. by intros td' [= <-].
  - injection Ht as <-. injection Hi as <-. repeat split; try done; eauto.
Qed.

(** C6 (amended).  For every response whose ["results"] is a list of
    records of the expected shape, the extraction produces one item per
    record, in order, and in the item of a record: the title is
    ["Sans titre"] when ["titles"] is missing or its first entry has no
    ["title"]; the nature is ["Non spécifiée"] and the date
    ["Date inconnue"] when missing; the id is the record's ["id"], else
    the ["id"] of the first title entry, else [None]; and every excerpt
    comes from one visited extract, in order, its text being the empty
    string when that extract has no ["values"]. *)
Theorem extraire_resultats_defauts (d : gmap string value) (rs : list value) :
  d !! "results" = Some (VList rs) →
  forallb resultat_ok rs = true →
  ∃ items, extraire_resultats (VDict d) = Ok items ∧
    Forall2 (λ r it,
      ∃ rd, r = VDict rd ∧
        (rd !! "titles" = None → titre it = VStr "Sans titre") ∧
        (∀ td, premier_titre rd = Some td →
           titre it = default (VStr "Sans titre") (td !! "title")) ∧
        nature it = default (VStr "Non spécifiée") (rd !! "nature") ∧
        date it = default (VStr "Date inconnue") (rd !! "date") ∧
        item_id it =
          default (match premier_titre rd with
                   | Some td => default VNone (td !! "id")
                   | None => VNone
                   end) (rd !! "id") ∧
        ∃ es, extracts_visites r = Ok es ∧ Forall2 extrait_de es (extraits it))
      rs items.
Proof.
  intros Hd Hrs. exists (item_attendu <$> rs). split.
  - unfold extraire_resultats.
    rewrite (py_truthy_dict d _ _ Hd), contains_dict. simpl. rewrite Hd. simpl.
    apply (for_each_append_ok extraire_item item_attendu rs []).
    apply Forall_forall. intros r Hr. apply extraire_item_ok.
    rewrite forallb_forall in Hrs. by apply Hrs, list_elem_of_In.
  - apply Forall2_fmap_r, Forall_Forall2_diag, Forall_forall. intros r Hr.
    apply extraire_item_defauts, extraire_item_ok.
    rewrite forallb_forall in Hrs. by apply Hrs, list_elem_of_In.
Qed.

Lemma extraire_resultats_defauts_witness :
  ∃ items, extraire_resultats (VDict reponse_exemple) = Ok items ∧
           length items = 2%nat.
Proof.
  destruct (extraire_resultats_defauts reponse_exemple [resultat_exemple; VDict ∅])
    as (items & Hitems & Hall).
  - reflexivity.
  - vm_compute. reflexivity.
  - exists items. split; [exact Hitems|].
    symmetry. exact (Forall2_length _ _ _ Hall).
Defined.

(** C6, as stated, fails on a record whose ["titles"] is not a list of
    objects: here the nature is missing, and no item carrying its
    fallback is produced, the call raises. *)
Lemma extraire_resultats_titles_chaine :
  extraire_resultats
    (VDict {[ "results" :=
        VList [VDict (<["date" := VStr "2020-01-01"]> {[ "titles" := VStr "Code civil" ]})] ]}) =
  Raise AttributeError.
Proof. vm_compute. reflexivity. Qed.

Lemma extraire_resultats_bien_formes_witness :
  extraire_resultats (VDict reponse_exemple) =
    Ok (item_attendu <$> [resultat_exemple; VDict ∅]).
Proof.
  apply (extraire_resultats_bien_formes reponse_exemple [resultat_exemple; VDict ∅]).
  - reflexivity.
  - vm_compute. reflexivity.
Defined.

(** C1, as stated, fails on a record whose ["sections"] holds something
    other than objects: the membership test on a number raises. *)
Lemma extraire_resultats_section_nombre :
  extraire_resultats
    (VDict {[ "results" := VList [VDict {[ "sections" := VList [VInt 5] ]}] ]}) =
  Raise TypeError.
Proof. vm_compute. reflexivity. Qed.

(** Characters, not bytes: the first character, the length and the
    excerpt text of a string with accents. *)
Example py_getitem0_accent : py_getitem0 (VStr "été") = Ok (VStr "é").
Proof. reflexivity. Qed.

Example py_len_accent : py_len (VStr "été") = Ok 3.
Proof. reflexivity. Qed.

Example extraire_extrait_values_chaine :
  extraire_extrait (VDict {[ "values" := VStr "été" ]}) =
  Ok {| article := VStr "Non numéroté"; texte := VStr "é";
        extrait_id := VStr EmptyString |}.
Proof. vm_compute. reflexivity. Qed.

(** An empty ["titles"] list: [[][0]] raises. *)
Example extraire_resultats_titles_vide :
  extraire_resultats
    (VDict {[ "results" := VList [VDict {[ "titles" := VList [] ]}] ]}) =
  Raise IndexError.
Proof. vm_compute. reflexivity. Qed.

(** An extract whose ["values"] is an empty list: the text is empty. *)
Example extraire_extrait_values_vide :
  extraire_extrait (VDict {[ "values" := VList [] ]}) =
  Ok {| article := VStr "Non numéroté"; texte := VStr EmptyString;
        extrait_id := VStr EmptyString |}.
Proof. vm_compute. reflexivity. Qed.

Lemma extraire_item_defauts_witness :
  ∃ d, resultat_exemple = VDict d ∧
    nature (item_attendu resultat_exemple) = default (VStr "Non spécifiée") (d !! "nature") ∧
    date (item_attendu resultat_exemple) = VStr "Date inconnue" ∧
    item_id (item_attendu resultat_exemple) = VStr "LEGITEXT1".
Proof.
  destruct (extraire_item_defauts resultat_exemple (item_attendu resultat_exemple))
    as (d & Hd & _ & _ & Hn & Hdate & Hid & _).
  - vm_compute. reflexivity.
  - exists d. split; [exact Hd|]. split; [exact Hn|].
    injection Hd as <-. split; [exact Hdate | exact Hid].
Defined.

(** ** Properties of the two HTTP functions *)

Section ClientProperties.

Context (client_id client_secret : value).
Context (post : request -> result response).
Context (py_repr : value -> string).

#[local] Abbreviation oauth := (oauth_request client_id client_secret).
#[local] Abbreviation obtenir_token := (obtenir_token_legifrance client_id client_secret post).
#[local] Abbreviation acquire := (token_ou_nouveau client_id client_secret post).
#[local] Abbreviation search := (search_request py_repr).
#[local] Abbreviation recherche := (recherche_legifrance client_id client_secret post py_repr).

Lemma obtenir_token_200 (w : world) (rsp : response) :
  post oauth = Ok rsp →
  status_code rsp = 200 →
  obtenir_token w =
    (j ← response_json rsp; py_getitem j "access_token",
     {| sent := sent w ++ [oauth]; stdout := stdout w |}).
Proof.
  intros Hp Hs. unfold obtenir_token_legifrance, mbind, M_bind, requests_post.
  rewrite Hp, Hs. reflexivity.
Qed.

Lemma obtenir_token_non_200 (w : world) (rsp : response) :
  post oauth = Ok rsp →
  status_code rsp ≠ 200 →
  obtenir_token w =
    (Ok VNone,
     {| sent := sent w ++ [oauth];
        stdout := stdout w ++ ["Erreur d'authentification: " +:+ pretty (status_code rsp)
                                 +:+ " - " +:+ text rsp] |}).
Proof.
  intros Hp Hs. unfold obtenir_token_legifrance, mbind, M_bind, requests_post.
  rewrite Hp. apply Z.eqb_neq in Hs. rewrite Hs. reflexivity.
Qed.

(** C2.  Whatever the answer of the token endpoint: with status 200 and
    a JSON object holding ["access_token"], the function returns exactly
    that value; with any other status it returns [None] and raises
    nothing. *)
Theorem obtenir_token_legifrance_spec (w : world) (rsp : response) :
  post oauth = Ok rsp →
  (∀ d tok, status_code rsp = 200 → json rsp = inr (VDict d) →
     d !! "access_token" = Some tok →
     (obtenir_token w).1 = Ok tok) ∧
  (status_code rsp ≠ 200 → (obtenir_token w).1 = Ok VNone).
Proof.
  intros Hp. split.
  - intros d tok Hs Hj Hd. rewrite (obtenir_token_200 w rsp Hp Hs).
    unfold response_json. rewrite Hj. simpl. by rewrite Hd.
  - intros Hs. by rewrite (obtenir_token_non_200 w rsp Hp Hs).
Qed.


Lemma raise_for_status_echec (r : response) :
  400 <= status_code r < 600 →
  ∃ msg, raise_for_status r = Raise (RequestException msg (Some r)).
Proof.
  intros H. unfold raise_for_status.
  destruct (Z.leb_spec 400 (status_code r)); [|lia].
  destruct (Z.ltb_spec (status_code r) 500); simpl; [eauto|].
  destruct (Z.leb_spec 500 (status_code r)); [|lia].
  destruct (Z.ltb_spec (status_code r) 600); simpl; [eauto|lia].
Qed.

Lemma raise_for_status_cases (r : response) :
  raise_for_status r = Ok tt ∨
  ∃ msg, raise_for_status r = Raise (RequestException msg (Some r)).
Proof.
  unfold raise_for_status.
  destruct (_ && _); [eauto|]. destruct (_ && _); eauto.
Qed.

(** Once the token is settled, exactly one request goes to the search
    endpoint, whatever happens to it. *)
Lemma recherche_legifrance_sent (a : search_args) (w w1 : world) (tok : value) :
  acquire a w = (Ok tok, w1) →
  sent (recherche a w).2 = sent w1 ++ [search a tok].
Proof.
  intros Ha. unfold recherche_legifrance, mbind at 1, M_bind at 1. rewrite Ha.
  unfold try_except_RequestException, mbind, M_bind, requests_post, lift, print, mret, M_ret.
  destruct (post (search a tok)) as [r|e]; simpl.
  - destruct (raise_for_status_cases r) as [-> | [msg ->]]; simpl.
    + destruct (response_json r) as [v|[]]; try reflexivity.
      destruct r0 as [r0|]; [destruct (response_ok r0)|]; reflexivity.
    + destruct (response_ok r); reflexivity.
  - destruct e as [ | | | |msg [r0|]]; try reflexivity.
    destruct (response_ok r0); reflexivity.
Qed.

(** C8 (amended).  When the search request fails, by a
    [RequestException] raised by [requests.post] or by a 4xx or 5xx
    status, the function returns [None] and raises nothing. *)
Theorem recherche_legifrance_echec (a : search_args) (w w1 : world) (tok : value) :
  acquire a w = (Ok tok, w1) →
  echec_requete (post (search a tok)) →
  (recherche a w).1 = Ok VNone.
Proof.
  intros Ha He. unfold recherche_legifrance, mbind at 1, M_bind at 1. rewrite Ha.
  unfold try_except_RequestException, mbind, M_bind, requests_post, lift, print, mret, M_ret.
  destruct (post (search a tok)) as [r|e]; simpl in *.
  - destruct (raise_for_status_echec r He) as [msg ->]. simpl.
    destruct (response_ok r); reflexivity.
  - destruct e as [ | | | |msg [r0|]]; try contradiction; try reflexivity.
    destruct (response_ok r0); reflexivity.
Qed.

(** C9.  Called without a token while the token endpoint answers with a
    status other than 200, the function still posts the search request,
    right after the token request; its [Authorization] header is
    ["Bearer None"] and its body is the payload built from the
    arguments. *)
Theorem recherche_legifrance_sans_token (a : search_args) (w : world) (rsp : response) :
  py_truthy (token a) = false →
  post oauth = Ok rsp →
  status_code rsp ≠ 200 →
  sent (recherche a w).2 = sent w ++ [oauth; search a VNone] ∧
  url (search a VNone) = LEGIFRANCE_BASE_URL +:+ "/search" ∧
  headers (search a VNone) !! "Authorization" = Some "Bearer None" ∧
  body (search a VNone) = JsonBody (recherche_payload a).
Proof.
  intros Ht Hp Hs. split; [|by repeat split].
  erewrite recherche_legifrance_sent.
  2:{ unfold token_ou_nouveau. rewrite Ht. simpl.
      apply (obtenir_token_non_200 w rsp Hp Hs). }
  simpl. by rewrite <- app_assoc.
Qed.

End ClientProperties.

Lemma obtenir_token_legifrance_spec_witness :
  (obtenir_token_legifrance VNone VNone (reseau_constant reponse_token) monde_initial).1
    = Ok (VStr "abc") ∧
  (obtenir_token_legifrance VNone VNone (reseau_constant reponse_401) monde_initial).1
    = Ok VNone.
Proof.
  split.
  - apply (proj1 (obtenir_token_legifrance_spec VNone VNone (reseau_constant reponse_token)
                    monde_initial reponse_token eq_refl)
             {[ "access_token" := VStr "abc" ]} (VStr "abc")); reflexivity.
  - apply (proj2 (obtenir_token_legifrance_spec VNone VNone (reseau_constant reponse_401)
                    monde_initial reponse_401 eq_refl)).
    simpl. lia.
Defined.

Lemma recherche_legifrance_echec_witness :
  (recherche_legifrance VNone VNone (reseau_constant reponse_500) repr_vide
     args_avec_token monde_initial).1 = Ok VNone.
Proof.
  apply (recherche_legifrance_echec VNone VNone (reseau_constant reponse_500) repr_vide
           args_avec_token monde_initial monde_initial (VStr "jeton")).
  - reflexivity.
  - simpl. lia.
Defined.

(** C8, as stated, fails on a status that is neither 2xx nor an error
    status: on 304 with a JSON body the decoded body is returned, not
    [None]. *)
Lemma recherche_legifrance_statut_304 :
  ¬ (200 <= status_code reponse_304 < 300) ∧
  (recherche_legifrance VNone VNone (reseau_constant reponse_304) repr_vide
     args_avec_token monde_initial).1 = Ok (VDict {[ "results" := VList [] ]}) ∧
  Ok (VDict {[ "results" := VList [] ]}) ≠ Ok VNone.
Proof.
  split; [simpl; lia|]. split; [reflexivity|discriminate].
Qed.

Lemma recherche_legifrance_sans_token_witness :
  sent (recherche_legifrance VNone VNone (reseau_constant reponse_401) repr_vide
          default_args monde_initial).2
    = [oauth_request VNone VNone; search_request repr_vide default_args VNone] ∧
  headers (search_request repr_vide default_args VNone) !! "Authorization"
    = Some "Bearer None".
Proof.
  destruct (recherche_legifrance_sans_token VNone VNone (reseau_constant reponse_401) repr_vide
              default_args monde_initial reponse_401) as (H1 & _ & H2 & _).
  - reflexivity.
  - reflexivity.
  - simpl. lia.
  - split; [exact H1 | exact H2].
Defined.

(** ** Further properties of the search payload *)

Lemma recherche_dict_base (a : search_args) :
  recherche_dict a !! "pageNumber" = Some (page a) ∧
  recherche_dict a !! "pageSize" = Some (page_size a) ∧
  recherche_dict a !! "sort" = Some (tri a) ∧
  recherche_dict a !! "typePagination" = Some (VStr "DEFAUT").
Proof.
  unfold recherche_dict.
  destruct (py_truthy (query a)), (py_truthy (filtres a)); by simplify_map_eq.
Qed.

(** X1.  Whatever the arguments, the payload is an object with exactly the
    keys ["recherche"] and ["fond"]; ["fond"] is the [fond] argument, and
    under ["recherche"] the page number, the page size, the sort order and
    the pagination type ["DEFAUT"] are always present. *)
Theorem recherche_payload_socle (a : search_args) :
  (∃ top, recherche_payload a = VDict top ∧
          dom top = {[ "recherche"; "fond" ]} ∧
          top !! "fond" = Some (fond a)) ∧
  recherche_key (recherche_payload a) "pageNumber" = Some (page a) ∧
  recherche_key (recherche_payload a) "pageSize" = Some (page_size a) ∧
  recherche_key (recherche_payload a) "sort" = Some (tri a) ∧
  recherche_key (recherche_payload a) "typePagination" = Some (VStr "DEFAUT").
Proof.
  split.
  - eexists. split; [reflexivity|]. split; [|by simplify_map_eq].
    rewrite dom_insert_L, dom_singleton_L. set_solver.
  - rewrite !recherche_key_payload. apply recherche_dict_base.
Qed.

(** X2.  The keys under ["recherche"] are the four fixed ones, plus
    ["champs"] and ["operateur"] together exactly when the query counts as
    true, plus ["filtres"] exactly when the filter argument counts as
    true; there is never any other key. *)
Theorem recherche_dict_cles (a : search_args) :
  dom (recherche_dict a) =
    {[ "pageNumber"; "pageSize"; "sort"; "typePagination" ]}
    ∪ (if py_truthy (query a) then {[ "champs"; "operateur" ]} else ∅)
    ∪ (if py_truthy (filtres a) then {[ "filtres" ]} else ∅).
Proof.
  unfold recherche_dict.
  destruct (py_truthy (query a)), (py_truthy (filtres a));
    rewrite ?dom_insert_L, dom_singleton_L; set_solver.
Qed.

(** X3.  The text block and the filter list do not interact: changing the
    filters leaves ["champs"] and ["operateur"] as they are, and changing
    the query leaves ["filtres"] as it is. *)
Theorem recherche_payload_independance (a : search_args) (q f : value) :
  recherche_key (recherche_payload (with_filtres a f)) "champs" =
    recherche_key (recherche_payload a) "champs" ∧
  recherche_key (recherche_payload (with_filtres a f)) "operateur" =
    recherche_key (recherche_payload a) "operateur" ∧
  recherche_key (recherche_payload (with_query a q)) "filtres" =
    recherche_key (recherche_payload a) "filtres".
Proof.
  rewrite !recherche_key_payload, !recherche_dict_champs, !recherche_dict_operateur,
    !recherche_dict_filtres.
  done.
Qed.

(** X4.  The query and the filters are tested by truth value: any value
    that counts as false ([None], the empty string, [0], an empty list,
    [False]) gives the payload built without it. *)
Theorem recherche_payload_valeurs_fausses (a : search_args) (q f : value) :
  py_truthy q = false → py_truthy f = false →
  recherche_payload (with_query a q) = recherche_payload (with_query a VNone) ∧
  recherche_payload (with_filtres a f) = recherche_payload (with_filtres a VNone).
Proof.
  intros Hq Hf. unfold recherche_payload, recherche_dict. simpl.
  by rewrite Hq, Hf.
Qed.

Lemma recherche_payload_valeurs_fausses_witness :
  recherche_payload (with_query default_args (VInt 0)) =
    recherche_payload (with_query default_args VNone) ∧
  recherche_payload (with_filtres default_args (VList [])) =
    recherche_payload (with_filtres default_args VNone).
Proof.
  apply (recherche_payload_valeurs_fausses default_args (VInt 0) (VList [])); reflexivity.
Defined.

(** X5.  A query that counts as true is passed on as it is, whatever its
    type: the criterion's ["valeur"] is the query object itself. *)
Theorem recherche_payload_query_vraie (a : search_args) :
  py_truthy (query a) = true →
  recherche_key (recherche_payload a) "champs" =
    Some (VList [champ_block (type_champ a) (type_recherche a) (query a)]) ∧
  recherche_key (recherche_payload a) "operateur" = Some (VStr "ET").
Proof.
  intros H.
  by rewrite !recherche_key_payload, recherche_dict_champs, recherche_dict_operateur, H.
Qed.

Lemma recherche_payload_query_vraie_witness :
  recherche_key (recherche_payload (with_query default_args (VInt 1240))) "champs" =
    Some (VList [champ_block (VStr "ALL") (VStr "EXACTE") (VInt 1240)]) ∧
  recherche_key (recherche_payload (with_query default_args (VInt 1240))) "operateur" =
    Some (VStr "ET").
Proof.
  apply (recherche_payload_query_vraie (with_query default_args (VInt 1240))). reflexivity.
Defined.

(** ** Further properties of result extraction *)

Lemma for_each_append_raise {A X : Type} (f : A → result X) (good rest : list A)
    (r : A) (e : exn) (acc : list X) :
  Forall (λ a, ∃ x, f a = Ok x) good →
  f r = Raise e →
  for_each (fun (acc : list X) (a : A) => x ← f a; Ok (acc ++ [x])) acc (good ++ r :: rest)
    = Raise e.
Proof.
  intros Hg Hr. revert acc. induction Hg as [|a good [x Ha] _ IH]; intros acc; simpl.
  - by rewrite Hr.
  - rewrite Ha. simpl. apply IH.
Qed.

Lemma for_each_append_iff {A X : Type} (f : A → result X) (l : list A) (xs : list X) :
  for_each (fun (acc : list X) (a : A) => x ← f a; Ok (acc ++ [x])) [] l = Ok xs ↔
  Forall2 (λ a x, f a = Ok x) l xs.
Proof.
  split.
  - intros (ys & -> & H)%for_each_append_inv. done.
  - intros H.
    assert (∀ acc, for_each (fun (acc : list X) (a : A) => x ← f a; Ok (acc ++ [x])) acc l
                   = Ok (acc ++ xs)) as Hacc; [|apply (Hacc [])].
    induction H as [|a x l xs Ha _ IH]; intros acc; simpl.
    + by rewrite app_nil_r.
    + rewrite Ha. simpl. rewrite IH. by rewrite <- app_assoc.
Qed.

(** X6.  Every response that counts as false (an empty object, an empty
    list, the empty string, [0], [False], [None]) gives the empty list. *)
Theorem extraire_resultats_faux (resultats : value) :
  py_truthy resultats = false → extraire_resultats resultats = Ok [].
Proof. intros H. unfold extraire_resultats. by rewrite H. Qed.

Lemma extraire_resultats_faux_witness :
  extraire_resultats (VDict ∅) = Ok [] ∧ extraire_resultats (VInt 0) = Ok [].
Proof. split; apply extraire_resultats_faux; reflexivity. Defined.

(** X7.  A response that is a number or a boolean counting as true is not
    answered with the empty list: the membership test raises
    [TypeError]. *)
Theorem extraire_resultats_scalaire (resultats : value) :
  scalaire resultats = true → py_truthy resultats = true →
  extraire_resultats resultats = Raise TypeError.
Proof.
  intros Hs Ht. unfold extraire_resultats. rewrite Ht.
  by destruct resultats.
Qed.

Lemma extraire_resultats_scalaire_witness :
  extraire_resultats (VInt 5) = Raise TypeError.
Proof. apply extraire_resultats_scalaire; reflexivity. Defined.

(** X8.  When ["results"] is a list, the extraction succeeds exactly when
    every record can be flattened, and then returns the items of the
    records one for one, in the order of the records. *)
Theorem extraire_resultats_un_pour_un (d : gmap string value) (rs : list value)
    (items : list item) :
  d !! "results" = Some (VList rs) →
  extraire_resultats (VDict d) = Ok items ↔
  Forall2 (λ r it, extraire_item r = Ok it) rs items.
Proof.
  intros Hd. unfold extraire_resultats.
  rewrite (py_truthy_dict d _ _ Hd), contains_dict. simpl. rewrite Hd. simpl.
  apply for_each_append_iff.
Qed.

Lemma extraire_resultats_un_pour_un_witness :
  extraire_resultats (VDict reponse_exemple) =
    Ok [item_attendu resultat_exemple; item_attendu (VDict ∅)] ↔
  Forall2 (λ r it, extraire_item r = Ok it) [resultat_exemple; VDict ∅]
    [item_attendu resultat_exemple; item_attendu (VDict ∅)].
Proof.
  apply (extraire_resultats_un_pour_un reponse_exemple). reflexivity.
Defined.

(** X9.  The extraction is all or nothing: the first record that raises
    makes the whole call raise that exception, and the items of the
    records before it are lost. *)
Theorem extraire_resultats_tout_ou_rien (d : gmap string value)
    (avant apres : list value) (r : value) (e : exn) :
  d !! "results" = Some (VList (avant ++ r :: apres)) →
  Forall (λ r', ∃ it, extraire_item r' = Ok it) avant →
  extraire_item r = Raise e →
  extraire_resultats (VDict d) = Raise e.
Proof.
  intros Hd Hav Hr. unfold extraire_resultats.
  rewrite (py_truthy_dict d _ _ Hd), contains_dict. simpl. rewrite Hd. simpl.
  by apply for_each_append_raise.
Qed.

Lemma extraire_resultats_tout_ou_rien_witness :
  extraire_resultats
    (VDict {[ "results" := VList ([VDict ∅] ++ VInt 5 :: [VDict ∅]) ]}) = Raise TypeError.
Proof.
  apply (extraire_resultats_tout_ou_rien _ [VDict ∅] [VDict ∅] (VInt 5) TypeError).
  - reflexivity.
  - constructor; [|constructor]. eexists. vm_compute. reflexivity.
  - reflexivity.
Defined.

(** X10.  A record whose ["titles"] is the empty list raises [IndexError],
    whatever its other fields, its own ["id"] included. *)
Theorem extraire_item_titles_vide (d : gmap string value) :
  d !! "titles" = Some (VList []) →
  extraire_item (VDict d) = Raise IndexError.
Proof.
  intros H. unfold extraire_item. rewrite contains_dict, H. simpl. by rewrite H.
Qed.

Lemma extraire_item_titles_vide_witness :
  extraire_item (VDict (<["id" := VStr "LEGIARTI1"]> {[ "titles" := VList [] ]}))
    = Raise IndexError.
Proof. apply extraire_item_titles_vide. reflexivity. Defined.

(** X11.  A record that is not an object always raises: [TypeError] for
    [None], a number or a boolean, [AttributeError] for a string or a
    list. *)
Theorem extraire_item_non_objet (r : value) :
  match r with
  | VDict _ => True
  | VStr _ | VList _ => extraire_item r = Raise AttributeError
  | _ => extraire_item r = Raise TypeError
  end.
Proof.
  destruct r as [ | | | |s|l| ]; try done; unfold extraire_item; simpl.
  - by destruct (is_substring "titles" s).
  - by destruct (existsb (is_str "titles") l).
Qed.

(** X12.  An extract whose ["values"] counts as false (an empty list, the
    empty string, [None], [0]) gets the empty text, the other two fields
    keeping their own fallbacks. *)
Theorem extraire_extrait_values_fausses (ed : gmap string value) (v : value) :
  ed !! "values" = Some v → py_truthy v = false →
  extraire_extrait (VDict ed) =
    Ok {| article := default (VStr "Non numéroté") (ed !! "num");
          texte := VStr EmptyString;
          extrait_id := default (VStr EmptyString) (ed !! "id") |}.
Proof.
  intros Hv Hf. unfold extraire_extrait. rewrite contains_dict, Hv. simpl.
  rewrite Hv. simpl. by rewrite Hf.
Qed.

Lemma extraire_extrait_values_fausses_witness :
  extraire_extrait (VDict (<["num" := VStr "9"]> {[ "values" := VList [] ]})) =
    Ok {| article := VStr "9"; texte := VStr EmptyString; extrait_id := VStr EmptyString |}.
Proof.
  exact (extraire_extrait_values_fausses
           (<["num" := VStr "9"]> {[ "values" := VList [] ]}) (VList []) eq_refl eq_refl).
Defined.

(** X13.  Of a list of ["values"] only the first one is kept as the text
    of the excerpt; the others are dropped. *)
Theorem extraire_extrait_premiere_valeur (ed : gmap string value) (x : value)
    (autres : list value) :
  ed !! "values" = Some (VList (x :: autres)) →
  extraire_extrait (VDict ed) =
    Ok {| article := default (VStr "Non numéroté") (ed !! "num");
          texte := x;
          extrait_id := default (VStr EmptyString) (ed !! "id") |}.
Proof.
  intros Hv. unfold extraire_extrait. rewrite contains_dict, Hv. simpl.
  by rewrite Hv.
Qed.

Lemma extraire_extrait_premiere_valeur_witness :
  extraire_extrait (VDict {[ "values" := VList [VStr "un"; VStr "deux"] ]}) =
    Ok {| article := VStr "Non numéroté"; texte := VStr "un";
          extrait_id := VStr EmptyString |}.
Proof.
  exact (extraire_extrait_premiere_valeur
           {[ "values" := VList [VStr "un"; VStr "deux"] ]} (VStr "un") [VStr "deux"] eq_refl).
Defined.

(** ** Further properties of the two HTTP functions *)

Section ClientRuns.

Context (client_id client_secret : value).
Context (post : request -> result response).
Context (py_repr : value -> string).

#[local] Abbreviation oauth := (oauth_request client_id client_secret).
#[local] Abbreviation obtenir_token := (obtenir_token_legifrance client_id client_secret post).
#[local] Abbreviation acquire := (token_ou_nouveau client_id client_secret post).
#[local] Abbreviation search := (search_request py_repr).
#[local] Abbreviation recherche := (recherche_legifrance client_id client_secret post py_repr).

Lemma response_ok_echec (r : response) :
  400 <= status_code r < 600 → response_ok r = false.
Proof.
  intros H. unfold response_ok.
  by destruct (raise_for_status_echec r H) as [msg ->].
Qed.

Lemma raise_for_status_ok (r : response) :
  ¬ (400 <= status_code r < 600) → raise_for_status r = Ok tt.
Proof.
  intros H. unfold raise_for_status.
  destruct (Z.leb_spec 400 (status_code r)), (Z.ltb_spec (status_code r) 500),
    (Z.leb_spec 500 (status_code r)), (Z.ltb_spec (status_code r) 600);
    simpl; try reflexivity; lia.
Qed.

Lemma acquire_avec_token (a : search_args) (w : world) :
  py_truthy (token a) = true → acquire a w = (Ok (token a), w).
Proof. intros H. unfold token_ou_nouveau. by rewrite H. Qed.

Lemma obtenir_token_raise (w : world) (e : exn) :
  post oauth = Raise e →
  obtenir_token w = (Raise e, {| sent := sent w ++ [oauth]; stdout := stdout w |}).
Proof.
  intros Hp. unfold obtenir_token_legifrance, mbind, M_bind, requests_post.
  by rewrite Hp.
Qed.

(** The whole run on a 4xx or 5xx answer of the search endpoint. *)
Lemma recherche_legifrance_erreur_http (a : search_args) (w w1 : world) (tok : value)
    (r : response) :
  acquire a w = (Ok tok, w1) →
  post (search a tok) = Ok r →
  400 <= status_code r < 600 →
  ∃ msg, raise_for_status r = Raise (RequestException msg (Some r)) ∧
    recherche a w =
      (Ok VNone,
       {| sent := sent w1 ++ [search a tok];
          stdout := stdout w1 ++ ["Erreur lors de la requête à l'API: " +:+ msg] |}).
Proof.
  intros Ha Hp Hs. destruct (raise_for_status_echec r Hs) as [msg Hmsg].
  exists msg. split; [done|].
  unfold recherche_legifrance, mbind at 1, M_bind at 1. rewrite Ha.
  unfold try_except_RequestException, mbind, M_bind, requests_post, lift, print, mret, M_ret.
  rewrite Hp. simpl. rewrite Hmsg. simpl. by rewrite (response_ok_echec r Hs).
Qed.

Lemma recherche_legifrance_echec_none (a : search_args) (w w1 : world) (tok : value) :
  acquire a w = (Ok tok, w1) →
  echec_requete (post (search a tok)) →
  (recherche a w).1 = Ok VNone.
Proof.
  intros Ha He. destruct (post (search a tok)) as [r|e] eqn:Hp; simpl in He.
  - destruct (recherche_legifrance_erreur_http a w w1 tok r Ha Hp He) as (msg & _ & ->).
    reflexivity.
  - unfold recherche_legifrance, mbind at 1, M_bind at 1. rewrite Ha.
    unfold try_except_RequestException, mbind, M_bind, requests_post, lift, print, mret, M_ret.
    rewrite Hp.
    destruct e as [ | | | |msg [r0|]]; try contradiction; try reflexivity.
    simpl. destruct (response_ok r0); reflexivity.
Qed.

Lemma recherche_legifrance_reussie (a : search_args) (w w1 : world) (tok : value)
    (r : response) (v : value) :
  acquire a w = (Ok tok, w1) →
  post (search a tok) = Ok r →
  ¬ (400 <= status_code r < 600) →
  json r = inr v →
  recherche a w = (Ok v, {| sent := sent w1 ++ [search a tok]; stdout := stdout w1 |}).
Proof.
  intros Ha Hp Hs Hj.
  unfold recherche_legifrance, mbind at 1, M_bind at 1. rewrite Ha.
  unfold try_except_RequestException, mbind, M_bind, requests_post, lift, print, mret, M_ret.
  rewrite Hp. simpl. rewrite (raise_for_status_ok r Hs). simpl.
  unfold response_json. by rewrite Hj.
Qed.

(** X14.  With a non-empty string token the token endpoint is not
    contacted: the call sends exactly one request, the search request,
    whose [Authorization] header is ["Bearer "] followed by the token. *)
Theorem recherche_legifrance_avec_token (a : search_args) (w : world) (s : string) :
  token a = VStr s → s ≠ EmptyString →
  sent (recherche a w).2 = sent w ++ [search a (VStr s)] ∧
  url (search a (VStr s)) ≠ LEGIFRANCE_OAUTH_URL ∧
  headers (search a (VStr s)) !! "Authorization" = Some ("Bearer " +:+ s).
Proof.
  intros Ht Hs. split; [|split; [discriminate|done]].
  rewrite <- Ht. apply recherche_legifrance_sent.
  apply acquire_avec_token. rewrite Ht. by apply py_truthy_str.
Qed.

(** X15.  When the search endpoint answers with a status outside 400-599
    and a JSON body, the call returns the decoded body as it is and
    prints nothing. *)
Theorem recherche_legifrance_succes (a : search_args) (w w1 : world) (tok : value)
    (r : response) (v : value) :
  acquire a w = (Ok tok, w1) →
  post (search a tok) = Ok r →
  ¬ (400 <= status_code r < 600) →
  json r = inr v →
  (recherche a w).1 = Ok v ∧ stdout (recherche a w).2 = stdout w1.
Proof.
  intros Ha Hp Hs Hj. by rewrite (recherche_legifrance_reussie a w w1 tok r v Ha Hp Hs Hj).
Qed.


(** X17.  Nothing is caught around the token request: an exception raised
    by [requests.post] on the token endpoint leaves
    [obtenir_token_legifrance], and leaves [recherche_legifrance] called
    without a token, in which case no search request is sent. *)
Theorem exception_token_propagee (a : search_args) (w : world) (e : exn) :
  post oauth = Raise e →
  (obtenir_token w).1 = Raise e ∧
  (py_truthy (token a) = false →
   (recherche a w).1 = Raise e ∧ sent (recherche a w).2 = sent w ++ [oauth]).
Proof.
  intros Hp. split; [by rewrite (obtenir_token_raise w e Hp)|].
  intros Ht.
  assert (acquire a w = (Raise e, {| sent := sent w ++ [oauth]; stdout := stdout w |})) as Ha.
  { unfold token_ou_nouveau. rewrite Ht. cbn [negb]. by apply obtenir_token_raise. }
  assert (recherche a w = (Raise e, {| sent := sent w ++ [oauth]; stdout := stdout w |}))
    as ->; [|done].
  unfold recherche_legifrance, mbind at 1, M_bind at 1. by rewrite Ha.
Qed.

(** X18.  A 200 answer of the token endpoint that holds no token is not
    turned into [None]: an object without ["access_token"] raises
    [KeyError], a JSON value that is not an object raises [TypeError], and
    a body that is not JSON raises as well. *)
Theorem obtenir_token_200_sans_token (w : world) (rsp : response) :
  post oauth = Ok rsp →
  status_code rsp = 200 →
  (∀ d, json rsp = inr (VDict d) → d !! "access_token" = None →
     (obtenir_token w).1 = Raise KeyError) ∧
  (∀ v, json rsp = inr v → (∀ d, v ≠ VDict d) →
     (obtenir_token w).1 = Raise TypeError) ∧
  (∀ msg, json rsp = inl msg → ∃ e, (obtenir_token w).1 = Raise e).
Proof.
  intros Hp Hs. rewrite (obtenir_token_200 client_id client_secret post w rsp Hp Hs).
  unfold response_json. repeat split.
  - intros d -> Hd. simpl. by rewrite Hd.
  - intros v -> Hv. simpl. destruct v; try done. by destruct (Hv d).
  - intros msg ->. simpl. eauto.
Qed.

(** X19.  A failed search flattens to the empty list: chaining the
    extraction after a search that failed raises nothing. *)
Theorem extraction_apres_echec (a : search_args) (w w1 : world) (tok : value) :
  acquire a w = (Ok tok, w1) →
  echec_requete (post (search a tok)) →
  ∃ v, (recherche a w).1 = Ok v ∧ extraire_resultats v = Ok [].
Proof.
  intros Ha He. exists VNone.
  split; [by apply (recherche_legifrance_echec_none a w w1 tok)|reflexivity].
Qed.

(** X20.  A successful search whose body holds well-shaped records under
    ["results"] flattens to one item per record. *)
Theorem extraction_apres_succes (a : search_args) (w w1 : world) (tok : value)
    (r : response) (d : gmap string value) (rs : list value) :
  acquire a w = (Ok tok, w1) →
  post (search a tok) = Ok r →
  ¬ (400 <= status_code r < 600) →
  json r = inr (VDict d) →
  d !! "results" = Some (VList rs) →
  forallb resultat_ok rs = true →
  ∃ v, (recherche a w).1 = Ok v ∧ extraire_resultats v = Ok (item_attendu <$> rs).
Proof.
  intros Ha Hp Hs Hj Hd Hrs. exists (VDict d). split.
  - by rewrite (recherche_legifrance_reussie a w w1 tok r _ Ha Hp Hs Hj).
  - unfold extraire_resultats.
    rewrite (py_truthy_dict d _ _ Hd), contains_dict. simpl. rewrite Hd. simpl.
    apply (for_each_append_ok extraire_item item_attendu rs []).
    apply Forall_forall. intros x Hx. apply extraire_item_ok.
    rewrite forallb_forall in Hrs. by apply Hrs, list_elem_of_In.
Qed.

End ClientRuns.

Lemma recherche_legifrance_avec_token_witness :
  sent (recherche_legifrance VNone VNone (reseau_constant reponse_500) repr_vide
          args_avec_token monde_initial).2
    = [search_request repr_vide args_avec_token (VStr "jeton")] ∧
  headers (search_request repr_vide args_avec_token (VStr "jeton")) !! "Authorization"
    = Some "Bearer jeton".
Proof.
  destruct (recherche_legifrance_avec_token VNone VNone (reseau_constant reponse_500)
              repr_vide args_avec_token monde_initial "jeton") as (H1 & _ & H2).
  - reflexivity.
  - discriminate.
  - split; [exact H1 | exact H2].
Defined.

Lemma recherche_legifrance_succes_witness :
  (recherche_legifrance VNone VNone (reseau_constant (reponse_resultats [])) repr_vide
     args_avec_token monde_initial).1 = Ok (VDict {[ "results" := VList [] ]}) ∧
  stdout (recherche_legifrance VNone VNone (reseau_constant (reponse_resultats [])) repr_vide
            args_avec_token monde_initial).2 = [].
Proof.
  apply (recherche_legifrance_succes VNone VNone (reseau_constant (reponse_resultats []))
           repr_vide args_avec_token monde_initial monde_initial (VStr "jeton")
           (reponse_resultats [])).
  - reflexivity.
  - reflexivity.
  - simpl. lia.
  - reflexivity.
Defined.


Lemma exception_token_propagee_witness :
  (obtenir_token_legifrance VNone VNone reseau_en_panne monde_initial).1
    = Raise (RequestException "Connection refused" None) ∧
  (recherche_legifrance VNone VNone reseau_en_panne repr_vide default_args monde_initial).1
    = Raise (RequestException "Connection refused" None).
Proof.
  destruct (exception_token_propagee VNone VNone reseau_en_panne repr_vide default_args
              monde_initial (RequestException "Connection refused" None) eq_refl)
    as (H1 & H2).
  split; [exact H1|]. apply H2. reflexivity.
Defined.

Lemma obtenir_token_200_sans_token_witness :
  (obtenir_token_legifrance VNone VNone (reseau_constant reponse_sans_token) monde_initial).1
    = Raise KeyError.
Proof.
  apply (proj1 (obtenir_token_200_sans_token VNone VNone (reseau_constant reponse_sans_token)
                  monde_initial reponse_sans_token eq_refl eq_refl)
           {[ "error" := VStr "invalid_client" ]}); reflexivity.
Defined.

Lemma extraction_apres_echec_witness :
  ∃ v, (recherche_legifrance VNone VNone (reseau_constant reponse_500) repr_vide
          args_avec_token monde_initial).1 = Ok v ∧
       extraire_resultats v = Ok [].
Proof.
  apply (extraction_apres_echec VNone VNone (reseau_constant reponse_500) repr_vide
           args_avec_token monde_initial monde_initial (VStr "jeton")).
  - reflexivity.
  - simpl. lia.
Defined.

Lemma extraction_apres_succes_witness :
  ∃ v, (recherche_legifrance VNone VNone
          (reseau_constant (reponse_resultats [resultat_exemple])) repr_vide
          args_avec_token monde_initial).1 = Ok v ∧
       extraire_resultats v = Ok (item_attendu <$> [resultat_exemple]).
Proof.
  apply (extraction_apres_succes VNone VNone
           (reseau_constant (reponse_resultats [resultat_exemple])) repr_vide
           args_avec_token monde_initial monde_initial (VStr "jeton")
           (reponse_resultats [resultat_exemple])
           {[ "results" := VList [resultat_exemple] ]} [resultat_exemple]).
  - reflexivity.
  - reflexivity.
  - simpl. lia.
  - reflexivity.
  - reflexivity.
  - vm_compute. reflexivity.
Defined.

(** ** The three specialisations *)

Section Specialisations.

Context (client_id client_secret : value).
Context (post : request -> result response).
Context (py_repr : value -> string).

#[local] Abbreviation oauth' := (oauth_request client_id client_secret).
#[local] Abbreviation search' := (search_request py_repr).

(** Without a token argument, a token handed out by the token endpoint is
    used for the one search request that follows. *)
Lemma recherche_legifrance_token_obtenu (a : search_args) (w : world) (rsp : response)
    (d : gmap string value) (tok : value) :
  py_truthy (token a) = false →
  post oauth' = Ok rsp → status_code rsp = 200 →
  json rsp = inr (VDict d) → d !! "access_token" = Some tok →
  sent (recherche_legifrance client_id client_secret post py_repr a w).2 =
    sent w ++ [oauth'; search' a tok].
Proof.
  intros Ht Hp Hs Hj Hd.
  erewrite recherche_legifrance_sent.
  2:{ unfold token_ou_nouveau. rewrite Ht. cbn [negb].
      rewrite (obtenir_token_200 client_id client_secret post w rsp Hp Hs).
      unfold response_json. rewrite Hj. simpl. rewrite Hd. reflexivity. }
  simpl. by rewrite <- app_assoc.
Qed.

(** X21.  [recherche_par_question] asks for a new token on every call and
    then posts one search: approximate matching over all fields of
    ["LEGI_ARTICLE"], 15 results per page, sorted by relevance, without
    filters; an empty question sends a search without text block. *)
Theorem recherche_par_question_requetes (question : value) (w : world) (rsp : response)
    (d : gmap string value) (tok : value) :
  post oauth' = Ok rsp → status_code rsp = 200 →
  json rsp = inr (VDict d) → d !! "access_token" = Some tok →
  let p := recherche_payload (args_question question) in
  sent (recherche_par_question client_id client_secret post py_repr question w).2 =
    sent w ++ [oauth'; search' (args_question question) tok] ∧
  body (search' (args_question question) tok) = JsonBody p ∧
  payload_fond p = Some (VStr "LEGI_ARTICLE") ∧
  recherche_key p "pageSize" = Some (VInt 15) ∧
  recherche_key p "sort" = Some (VStr "PERTINENCE") ∧
  recherche_key p "filtres" = None ∧
  recherche_key p "champs" =
    (if py_truthy question
     then Some (VList [champ_block (VStr "ALL") (VStr "APPROXIMATIVE") question])
     else None).
Proof.
  intros Hp Hs Hj Hd p. split.
  - by apply (recherche_legifrance_token_obtenu (args_question question) w rsp d tok).
  - subst p. rewrite !recherche_key_payload, recherche_dict_champs, recherche_dict_filtres.
    destruct (recherche_dict_base (args_question question)) as (_ & H1 & H2 & _).
    by rewrite H1, H2.
Qed.

(** X22.  [recherche_article_code] asks for a new token and then posts one
    search over ["CODE_DATE"] that always carries the ["NOM_CODE"] filter
    with the given code name, whatever the two arguments, and looks the
    article number up exactly in the ["NUM_ARTICLE"] field. *)
Theorem recherche_article_code_requetes (code_name article_num : value) (w : world)
    (rsp : response) (d : gmap string value) (tok : value) :
  post oauth' = Ok rsp → status_code rsp = 200 →
  json rsp = inr (VDict d) → d !! "access_token" = Some tok →
  let p := recherche_payload (args_article_code code_name article_num) in
  sent (recherche_article_code client_id client_secret post py_repr code_name article_num w).2 =
    sent w ++ [oauth'; search' (args_article_code code_name article_num) tok] ∧
  body (search' (args_article_code code_name article_num) tok) = JsonBody p ∧
  payload_fond p = Some (VStr "CODE_DATE") ∧
  recherche_key p "filtres" =
    Some (VList [VDict (<["facette" := VStr "NOM_CODE"]>
                          {[ "valeurs" := VList [code_name] ]})]) ∧
  recherche_key p "champs" =
    (if py_truthy article_num
     then Some (VList [champ_block (VStr "NUM_ARTICLE") (VStr "EXACTE") article_num])
     else None).
Proof.
  intros Hp Hs Hj Hd p. split.
  - by apply (recherche_legifrance_token_obtenu (args_article_code code_name article_num)
                w rsp d tok).
  - subst p. by rewrite !recherche_key_payload, recherche_dict_champs, recherche_dict_filtres.
Qed.

(** X23.  [recherche_jurisprudence] asks for a new token and then posts
    one search over ["JURI_DATE"], sorted by date, 20 results per page,
    exact matching over all fields, without filters. *)
Theorem recherche_jurisprudence_requetes (theme : value) (w : world) (rsp : response)
    (d : gmap string value) (tok : value) :
  post oauth' = Ok rsp → status_code rsp = 200 →
  json rsp = inr (VDict d) → d !! "access_token" = Some tok →
  let p := recherche_payload (args_jurisprudence theme) in
  sent (recherche_jurisprudence client_id client_secret post py_repr theme w).2 =
    sent w ++ [oauth'; search' (args_jurisprudence theme) tok] ∧
  body (search' (args_jurisprudence theme) tok) = JsonBody p ∧
  payload_fond p = Some (VStr "JURI_DATE") ∧
  recherche_key p "sort" = Some (VStr "DATE") ∧
  recherche_key p "pageSize" = Some (VInt 20) ∧
  recherche_key p "filtres" = None ∧
  recherche_key p "champs" =
    (if py_truthy theme
     then Some (VList [champ_block (VStr "ALL") (VStr "EXACTE") theme])
     else None).
Proof.
  intros Hp Hs Hj Hd p. split.
  - by apply (recherche_legifrance_token_obtenu (args_jurisprudence theme) w rsp d tok).
  - subst p. rewrite !recherche_key_payload, recherche_dict_champs, recherche_dict_filtres.
    destruct (recherche_dict_base (args_jurisprudence theme)) as (_ & H1 & H2 & _).
    by rewrite H1, H2.
Qed.

End Specialisations.

Lemma recherche_par_question_requetes_witness :
  sent (recherche_par_question VNone VNone (reseau_avec_token reponse_500) repr_vide
          (VStr "bail commercial") monde_initial).2 =
    [oauth_request VNone VNone;
     search_request repr_vide (args_question (VStr "bail commercial")) (VStr "abc")].
Proof.
  apply (recherche_par_question_requetes VNone VNone (reseau_avec_token reponse_500) repr_vide
           (VStr "bail commercial") monde_initial reponse_token
           {[ "access_token" := VStr "abc" ]} (VStr "abc")); reflexivity.
Defined.

Lemma recherche_article_code_requetes_witness :
  recherche_key (recherche_payload (args_article_code (VStr "Code civil") (VStr EmptyString)))
    "filtres" =
    Some (VList [VDict (<["facette" := VStr "NOM_CODE"]>
                          {[ "valeurs" := VList [VStr "Code civil"] ]})]).
Proof.
  apply (recherche_article_code_requetes VNone VNone (reseau_avec_token reponse_500) repr_vide
           (VStr "Code civil") (VStr EmptyString) monde_initial reponse_token
           {[ "access_token" := VStr "abc" ]} (VStr "abc")); reflexivity.
Defined.

Lemma recherche_jurisprudence_requetes_witness :
  sent (recherche_jurisprudence VNone VNone (reseau_avec_token reponse_500) repr_vide
          (VStr "licenciement") monde_initial).2 =
    [oauth_request VNone VNone;
     search_request repr_vide (args_jurisprudence (VStr "licenciement")) (VStr "abc")].
Proof.
  apply (recherche_jurisprudence_requetes VNone VNone (reseau_avec_token reponse_500) repr_vide
           (VStr "licenciement") monde_initial reponse_token
           {[ "access_token" := VStr "abc" ]} (VStr "abc")); reflexivity.
Defined.

(** ** The diagnostic entry point *)

Section PingProperties.

Context (client_id client_secret : value).
Context (post : request -> result response).
Context (py_repr : value -> string).
Context (dict_slice_exn : exn).

#[local] Abbreviation oauth'' := (oauth_request client_id client_secret).
#[local] Abbreviation obtenir := (obtenir_token_legifrance client_id client_secret post).
#[local] Abbreviation ping_rq := (ping_request py_repr).
#[local] Abbreviation ping :=
  (test_ping_api client_id client_secret post py_repr dict_slice_exn).

Lemma obtenir_token_sent (w : world) :
  sent (obtenir w).2 = sent w ++ [oauth''].
Proof.
  unfold obtenir_token_legifrance, mbind, M_bind, requests_post, lift, print, mret, M_ret.
  destruct (post oauth'') as [r|e]; simpl; [|done].
  by destruct (status_code r =? 200).
Qed.

(** The run up to the answer of the search endpoint, for a string token. *)
Lemma test_ping_api_apres_token (w w1 : world) (s : string) :
  obtenir w = (Ok (VStr s), w1) → s ≠ EmptyString →
  ping w =
    (response ← requests_post post (ping_rq (VStr s));
     if status_code response =? 200
     then
       resultat ← lift (response_json response);
       print "Requête réussie !";;
       print (py_str py_repr resultat);;
       c ← lift (py_contains "results" resultat);
       if c : bool
       then
         rs ← lift (py_getitem resultat "results");
         nombre_resultats ← lift (py_len rs);
         print ("Nombre de résultats: " +:+ pretty nombre_resultats);;
         mret ("Connexion réussie à Legifrance, " +:+ pretty nombre_resultats
                 +:+ " résultat(s) obtenus")
       else mret "Connexion réussie à Legifrance, structure de réponse inhabituelle"
     else
       print ("Erreur lors de la requête: " +:+ pretty (status_code response)
                +:+ " - " +:+ text response);;
       mret ("Échec de la requête à Legifrance: code " +:+ pretty (status_code response)))
    {| sent := sent w1;
       stdout := stdout w1 ++ ["Token obtenu avec succès: "
                                 +:+ join (take 15%nat (characters s)) +:+ "..."] |}.
Proof.
  intros Ho Hs. unfold test_ping_api, mbind at 1, M_bind at 1. rewrite Ho.
  rewrite (py_truthy_str s Hs). cbn [negb].
  reflexivity.
Qed.

(** X24.  Without a usable token (the token endpoint refused, or handed
    out a value that counts as false) the diagnostic returns its failure
    message and stops there: the only request sent is the token
    request. *)
Theorem test_ping_api_sans_token (w w1 : world) (tok : value) :
  obtenir w = (Ok tok, w1) → py_truthy tok = false →
  ping w = (Ok "Échec de connexion à Legifrance (échec d'obtention du token)", w1) ∧
  sent (ping w).2 = sent w ++ [oauth''].
Proof.
  intros Ho Ht.
  assert (ping w = (Ok "Échec de connexion à Legifrance (échec d'obtention du token)", w1))
    as Hping.
  { unfold test_ping_api, mbind at 1, M_bind at 1. rewrite Ho, Ht. reflexivity. }
  split; [done|]. rewrite Hping. simpl.
  pose proof (obtenir_token_sent w) as H. by rewrite Ho in H.
Qed.

(** X25.  Any status other than 200 from the search endpoint, another 2xx
    status included, is reported as a failure carrying the status code,
    and nothing is raised. *)
Theorem test_ping_api_statut (w w1 : world) (s : string) (r : response) :
  obtenir w = (Ok (VStr s), w1) → s ≠ EmptyString →
  post (ping_rq (VStr s)) = Ok r →
  status_code r ≠ 200 →
  (ping w).1 = Ok ("Échec de la requête à Legifrance: code " +:+ pretty (status_code r)).
Proof.
  intros Ho Hs Hp Hst. rewrite (test_ping_api_apres_token w w1 s Ho Hs).
  unfold mbind, M_bind, requests_post. simpl. rewrite Hp.
  apply Z.eqb_neq in Hst. rewrite Hst. reflexivity.
Qed.

(** X26.  On a 200 answer holding a list under ["results"], the message
    returned counts the records of that list. *)
Theorem test_ping_api_compte (w w1 : world) (s : string) (r : response)
    (d : gmap string value) (rs : list value) :
  obtenir w = (Ok (VStr s), w1) → s ≠ EmptyString →
  post (ping_rq (VStr s)) = Ok r →
  status_code r = 200 →
  json r = inr (VDict d) →
  d !! "results" = Some (VList rs) →
  (ping w).1 = Ok ("Connexion réussie à Legifrance, " +:+ pretty (Z.of_nat (length rs))
                     +:+ " résultat(s) obtenus").
Proof.
  intros Ho Hs Hp Hst Hj Hd. rewrite (test_ping_api_apres_token w w1 s Ho Hs).
  unfold mbind, M_bind, requests_post, lift, print, mret, M_ret, response_json. simpl.
  rewrite Hp, Hst, Hj. simpl. rewrite Hd. simpl. reflexivity.
Qed.

(** X27.  On a 200 answer that is an object without ["results"], the
    diagnostic still reports a successful connection, with an unusual
    structure. *)
Theorem test_ping_api_inhabituelle (w w1 : world) (s : string) (r : response)
    (d : gmap string value) :
  obtenir w = (Ok (VStr s), w1) → s ≠ EmptyString →
  post (ping_rq (VStr s)) = Ok r →
  status_code r = 200 →
  json r = inr (VDict d) →
  d !! "results" = None →
  (ping w).1 = Ok "Connexion réussie à Legifrance, structure de réponse inhabituelle".
Proof.
  intros Ho Hs Hp Hst Hj Hd. rewrite (test_ping_api_apres_token w w1 s Ho Hs).
  unfold mbind, M_bind, requests_post, lift, print, mret, M_ret, response_json. simpl.
  rewrite Hp, Hst, Hj. simpl. rewrite Hd. simpl. reflexivity.
Qed.

(** X28.  The diagnostic catches nothing: an exception raised by
    [requests.post] on the search endpoint leaves [test_ping_api], after
    both requests have been sent. *)
Theorem test_ping_api_exception (w w1 : world) (s : string) (e : exn) :
  obtenir w = (Ok (VStr s), w1) → s ≠ EmptyString →
  post (ping_rq (VStr s)) = Raise e →
  (ping w).1 = Raise e ∧
  sent (ping w).2 = sent w ++ [oauth''; ping_rq (VStr s)].
Proof.
  intros Ho Hs Hp. rewrite (test_ping_api_apres_token w w1 s Ho Hs).
  unfold mbind, M_bind, requests_post. simpl. rewrite Hp. simpl.
  split; [done|].
  pose proof (obtenir_token_sent w) as H. rewrite Ho in H. simpl in H.
  rewrite H. by rewrite <- app_assoc.
Qed.

(** X29.  Run as a program with a token endpoint that refuses, the script
    raises nothing, sends the token request only and prints three lines:
    the banner, the authentication error and the closing line; the
    message returned by [test_ping_api] is not printed. *)
Theorem main_token_refuse (w : world) (rsp : response) :
  post oauth'' = Ok rsp → status_code rsp ≠ 200 →
  main client_id client_secret post py_repr dict_slice_exn w =
    (Ok tt,
     {| sent := sent w ++ [oauth''];
        stdout := stdout w ++
          ["Test de connexion à l'API Legifrance...";
           "Erreur d'authentification: " +:+ pretty (status_code rsp) +:+ " - " +:+ text rsp;
           "Fin de test."] |}).
Proof.
  intros Hp Hs. unfold main, mbind at 1, M_bind at 1, print at 1. 
  unfold mbind at 1, M_bind at 1.
  unfold test_ping_api, mbind at 1, M_bind at 1.
  rewrite (obtenir_token_non_200 client_id client_secret post _ rsp Hp Hs).
  simpl. unfold print. simpl. by rewrite <- !app_assoc.
Qed.

End PingProperties.

Lemma test_ping_api_sans_token_witness :
  (test_ping_api VNone VNone (reseau_constant reponse_401) repr_vide TypeError
     monde_initial).1 = Ok "Échec de connexion à Legifrance (échec d'obtention du token)" ∧
  sent (test_ping_api VNone VNone (reseau_constant reponse_401) repr_vide TypeError
          monde_initial).2 = [oauth_request VNone VNone].
Proof.
  destruct (test_ping_api_sans_token VNone VNone (reseau_constant reponse_401) repr_vide
              TypeError monde_initial
              (obtenir_token_legifrance VNone VNone (reseau_constant reponse_401)
                 monde_initial).2 VNone) as (H1 & H2).
  - reflexivity.
  - reflexivity.
  - split; [by rewrite H1 | exact H2].
Defined.

Lemma test_ping_api_statut_witness :
  (test_ping_api VNone VNone (reseau_avec_token reponse_304) repr_vide TypeError
     monde_initial).1 = Ok "Échec de la requête à Legifrance: code 304".
Proof.
  apply (test_ping_api_statut VNone VNone (reseau_avec_token reponse_304) repr_vide TypeError
           monde_initial
           (obtenir_token_legifrance VNone VNone (reseau_avec_token reponse_304)
              monde_initial).2 "abc" reponse_304).
  - reflexivity.
  - discriminate.
  - reflexivity.
  - simpl. lia.
Defined.

Lemma test_ping_api_compte_witness :
  (test_ping_api VNone VNone (reseau_avec_token (reponse_resultats [VDict ∅; VDict ∅]))
     repr_vide TypeError monde_initial).1 =
  Ok "Connexion réussie à Legifrance, 2 résultat(s) obtenus".
Proof.
  apply (test_ping_api_compte VNone VNone
           (reseau_avec_token (reponse_resultats [VDict ∅; VDict ∅])) repr_vide TypeError
           monde_initial
           (obtenir_token_legifrance VNone VNone
              (reseau_avec_token (reponse_resultats [VDict ∅; VDict ∅])) monde_initial).2
           "abc" (reponse_resultats [VDict ∅; VDict ∅])
           {[ "results" := VList [VDict ∅; VDict ∅] ]} [VDict ∅; VDict ∅]).
  - reflexivity.
  - discriminate.
  - reflexivity.
  - reflexivity.
  - reflexivity.
  - reflexivity.
Defined.

Lemma test_ping_api_inhabituelle_witness :
  (test_ping_api VNone VNone (reseau_avec_token reponse_sans_token) repr_vide TypeError
     monde_initial).1 =
  Ok "Connexion réussie à Legifrance, structure de réponse inhabituelle".
Proof.
  apply (test_ping_api_inhabituelle VNone VNone (reseau_avec_token reponse_sans_token)
           repr_vide TypeError monde_initial
           (obtenir_token_legifrance VNone VNone (reseau_avec_token reponse_sans_token)
              monde_initial).2
           "abc" reponse_sans_token {[ "error" := VStr "invalid_client" ]}).
  - reflexivity.
  - discriminate.
  - reflexivity.
  - reflexivity.
  - reflexivity.
  - reflexivity.
Defined.

Lemma test_ping_api_exception_witness :
  (test_ping_api VNone VNone reseau_recherche_en_panne repr_vide TypeError
     monde_initial).1 = Raise (RequestException "Connection refused" None) ∧
  sent (test_ping_api VNone VNone reseau_recherche_en_panne repr_vide TypeError
          monde_initial).2 =
    [] ++ [oauth_request VNone VNone; ping_request repr_vide (VStr "abc")].
Proof.
  apply (test_ping_api_exception VNone VNone reseau_recherche_en_panne repr_vide TypeError
           monde_initial
           (obtenir_token_legifrance VNone VNone reseau_recherche_en_panne monde_initial).2
           "abc" (RequestException "Connection refused" None)).
  - reflexivity.
  - discriminate.
  - reflexivity.
Defined.

Lemma main_token_refuse_witness :
  main VNone VNone (reseau_constant reponse_401) repr_vide TypeError monde_initial =
    (Ok tt,
     {| sent := [oauth_request VNone VNone];
        stdout := ["Test de connexion à l'API Legifrance...";
                   "Erreur d'authentification: 401 - ";
                   "Fin de test."] |}).
Proof.
  apply (main_token_refuse VNone VNone (reseau_constant reponse_401) repr_vide TypeError
           monde_initial reponse_401).
  - reflexivity.
  - simpl. lia.
Defined.
